(** * Privacy guardian: consent, redaction, audit and ingestion stages

  A shallow embedding of the five stage modules of the pipeline
  (consent_agent, redaction_agent, audit_agent, watchdog_agent,
  data_detection_agent) together with the properties of their
  specification.

  Python dictionaries are finite maps ([gmap]) or records of optional
  fields, exceptions are an explicit error monad, and everything the code
  obtains from outside (the consent store, the clock, the file system, the
  de-identification service, the analytical sink) is read from an explicit
  environment value. *)

From stdpp Require Import gmap strings list.
From Stdlib Require Import ZArith NArith Ascii.

Open Scope Z_scope.

(** ** Python-level conventions shared by the stage modules *)

Module Py.

(** The outcome of running a block of code: a value, or a raised
    exception (carrying its class name or message). *)
Inductive exc (A : Type) : Type :=
| Ret (a : A)
| Raise (e : string).
Arguments Ret {A} a.
Arguments Raise {A} e.

Definition bind {A B : Type} (m : exc A) (k : A -> exc B) : exc B :=
  match m with
  | Ret a => k a
  | Raise e => Raise e
  end.

#[global] Instance exc_ret : MRet exc := fun _ a => Ret a.
#[global] Instance exc_bind : MBind exc := fun _ _ k m => bind m k.

(** [try: body except Exception as e: handler e]. *)
Definition try_except {A : Type} (body : exc A) (handler : string -> A) : A :=
  match body with
  | Ret a => a
  | Raise e => handler e
  end.

Definition raises {A : Type} (m : exc A) : Prop :=
  match m with
  | Ret _ => False
  | Raise _ => True
  end.

Definition returns {A : Type} (m : exc A) : Prop :=
  match m with
  | Ret _ => True
  | Raise _ => False
  end.

(** A Python [str] holding text is a sequence of Unicode code points; the
    texts considered are those the utf-8 codec can write, that is, texts
    without lone surrogates. *)
Definition pychar : Type := N.
Definition pystr : Type := list pychar.

Definition of_ascii (s : string) : pystr :=
  map N_of_ascii (String.list_ascii_of_string s).

(** Truthiness of an optional string: [None] and [''] are falsy. *)
Definition truthy (o : option string) : bool :=
  match o with
  | None => false
  | Some s => negb (bool_decide (s = ""%string))
  end.

Definition truthy_text (o : option pystr) : bool :=
  match o with
  | None => false
  | Some s => negb (bool_decide (s = []))
  end.

End Py.

(** ** consent_agent/agent.py *)

Module Consent.
Import Py.

(** What is stored under ['valid_until'] in a consent entry. *)
Inductive expiry : Type :=
| Unset                 (* key absent, [None], or another falsy value *)
| At (t : Z)            (* a datetime comparable with [utcnow()] *)
| Incomparable.         (* a truthy value that [utcnow() > v] rejects *)

(** One consent entry [{granted, valid_until}]; [granted = None] when the
    key is absent. *)
Record consent_record : Type := {
  granted : option bool;
  valid_until : expiry
}.

(** The value found under a PII-type key of the user's document in the
    primary store: a dictionary of fields, or something without [.get]. *)
Inductive doc_value : Type :=
| Fields (c : consent_record)
| NotADict.

(** Outcome of [firestore.Client()] ... [doc_ref.get()]. *)
Inductive primary_reply : Type :=
| Unreachable (e : string)
| NoDocument
| Document (d : gmap string doc_value).

Definition no_expiry (g : bool) : consent_record :=
  {| granted := Some g; valid_until := Unset |}.

(** The table shipped in the module. *)
Definition LOCAL_CONSENT_DB : gmap string (gmap string consent_record) :=
  {[ "user123"%string :=
       list_to_map
         [ ("EMAIL_ADDRESS"%string, no_expiry true);
           ("PHONE_NUMBER"%string, no_expiry false);
           ("CREDIT_CARD_NUMBER"%string, no_expiry false);
           ("PERSON_NAME"%string, no_expiry true);
           ("US_SSN"%string, no_expiry false);
           ("US_DRIVER_LICENSE"%string, no_expiry false);
           ("US_PASSPORT"%string, no_expiry false) ] ]}.

(** Everything the consent check reads from outside its arguments: the
    module-level fallback table, the environment variable naming the
    collection, the primary store and the clock. *)
Record env : Type := {
  local_db : gmap string (gmap string consent_record);
  FIRESTORE_CONSENT_COLLECTION : option string;
  firestore : string -> string -> primary_reply;
  utcnow : Z
}.

Record event : Type := {
  user_id : option string;
  pii_findings : option (list string)
}.

Record reply : Type := {
  error : option string;
  consent_results : option (gmap string bool);
  status : option string
}.

(** [LOCAL_CONSENT_DB.get(user_id, {}).get(pii_type, {}).get('granted', False)] *)
Definition local_granted (db : gmap string (gmap string consent_record))
    (u t : string) : bool :=
  match db !! u with
  | None => false
  | Some per_user =>
      match per_user !! t with
      | None => false
      | Some c => default false (granted c)
      end
  end.

(** Body of the loop over a document of the primary store (lines 60-66):
    the value that is about to be stored under [pii_type]. *)
Definition primary_consent (now : Z) (d : gmap string doc_value)
    (t : string) : exc bool :=
  match d !! t with
  | None => Ret false
  | Some NotADict => Raise "AttributeError"
  | Some (Fields c) =>
      let has_consent := default false (granted c) in
      match valid_until c with
      | Unset => Ret has_consent
      | At vu => Ret (if bool_decide (now > vu) then false else has_consent)
      | Incomparable => Raise "TypeError"
      end
  end.

(** The loop of lines 59-68. [consent_results] is mutated in place, so
    what was stored before an exception stays stored. *)
Fixpoint primary_loop (now : Z) (d : gmap string doc_value)
    (ts : list string) (acc : gmap string bool)
    : gmap string bool * option string :=
  match ts with
  | [] => (acc, None)
  | t :: ts' =>
      match primary_consent now d t with
      | Ret b => primary_loop now d ts' (<[t := b]> acc)
      | Raise e => (acc, Some e)
      end
  end.

(** The loops of lines 72-73 and 78-79. *)
Fixpoint fallback_loop (db : gmap string (gmap string consent_record))
    (u : string) (ts : list string) (acc : gmap string bool)
    : gmap string bool :=
  match ts with
  | [] => acc
  | t :: ts' => fallback_loop db u ts' (<[t := local_granted db u t]> acc)
  end.

Definition collection (e : env) : string :=
  default "user_consents"%string (FIRESTORE_CONSENT_COLLECTION e).

Definition verify_consent_for_pii_types (e : env) (ev : event) : reply :=
  let u := default ""%string (user_id ev) in
  let ts := default [] (pii_findings ev) in
  if bool_decide (u = ""%string) || bool_decide (ts = []) then
    {| error := Some "Missing required fields: user_id and pii_findings"%string;
       consent_results := None;
       status := None |}
  else
    let results :=
      match firestore e (collection e) u with
      | Document d =>
          match primary_loop (utcnow e) d ts ∅ with
          | (acc, None) => acc
          | (acc, Some _) => fallback_loop (local_db e) u ts acc
          end
      | NoDocument => fallback_loop (local_db e) u ts ∅
      | Unreachable _ => fallback_loop (local_db e) u ts ∅
      end in
    {| error := None;
       consent_results := Some results;
       status := Some "verified"%string |}.

(** The user has no entry for [t] in the primary store's document, when
    there is a document. *)
Definition no_primary_entry (e : env) (u t : string) : Prop :=
  forall d, firestore e (collection e) u = Document d -> d !! t = None.

(** The user has no entry for [t] in the local table. *)
Definition no_local_entry (e : env) (u t : string) : Prop :=
  forall per_user, local_db e !! u = Some per_user -> per_user !! t = None.

(** [verify_consent], the single-type variant (lines 105-160). *)
Record single_event : Type := {
  se_user_id : option string;
  se_data_type : option string
}.

Record single_reply : Type := {
  has_consent : option bool;
  sr_message : option string;
  sr_error : option string
}.

Definition verify_consent (e : env) (ev : single_event) : single_reply :=
  let u := default ""%string (se_user_id ev) in
  let t := default ""%string (se_data_type ev) in
  if bool_decide (u = ""%string) || bool_decide (t = ""%string) then
    {| has_consent := None; sr_message := None;
       sr_error := Some "Missing required fields: user_id and data_type"%string |}
  else
    let local (msg : string) :=
      {| has_consent := Some (local_granted (local_db e) u t);
         sr_message := Some msg; sr_error := None |} in
    match firestore e (collection e) u with
    | Document d =>
        match primary_consent (utcnow e) d t with
        | Ret b =>
            {| has_consent := Some b;
               sr_message := Some (if b then "Valid consent found"%string
                                   else "Consent not granted"%string);
               sr_error := None |}
        | Raise _ => local "Using local fallback due to Firestore error"%string
        end
    | NoDocument => local "Using local fallback"%string
    | Unreachable _ => local "Using local fallback due to Firestore error"%string
    end.

(** Concrete environments used to exercise the consent check. *)

(** The primary store cannot be reached; the shipped table is the fallback. *)
Definition offline_env : env :=
  {| local_db := LOCAL_CONSENT_DB;
     FIRESTORE_CONSENT_COLLECTION := None;
     firestore := fun _ _ => Unreachable "DefaultCredentialsError";
     utcnow := 1700000000 |}.




Definition request (u : string) (ts : list string) : event :=
  {| user_id := Some u; pii_findings := Some ts |}.

End Consent.

(** ** The file system seen by the stages *)

Module Fs.
Import Py.

(** What a path names: a text file (utf-8 text), or something that exists
    but that [open] refuses (a directory, a file without permission).
    A path is the one name of its file. *)
Inductive node : Type :=
| File (content : pystr)
| Opaque.

Record filesystem : Type := {
  nodes : gmap string node;
  unwritable : gset string
}.

(** [os.path.exists] *)
Definition exists_path (fs : filesystem) (p : string) : bool :=
  bool_decide (is_Some (nodes fs !! p)).

(** [open(p, 'r').read()] *)
Definition read_text (fs : filesystem) (p : string) : exc pystr :=
  match nodes fs !! p with
  | Some (File c) => Ret c
  | Some Opaque => Raise "OSError"
  | None => Raise "FileNotFoundError"
  end.

(** [open(p, 'w').write(c)]: the file system afterwards. *)
Definition write_text (fs : filesystem) (p : string) (c : pystr) : exc filesystem :=
  if bool_decide (p ∈ unwritable fs) then Raise "OSError"
  else match nodes fs !! p with
       | Some Opaque => Raise "OSError"
       | _ => Ret {| nodes := <[p := File c]> (nodes fs); unwritable := unwritable fs |}
       end.

(** [open(p, 'w')] succeeds. *)
Definition can_write (fs : filesystem) (p : string) : bool :=
  negb (bool_decide (p ∈ unwritable fs)) &&
  match nodes fs !! p with
  | Some Opaque => false
  | _ => true
  end.

(** [str.rfind] of one character, [-1] when absent. *)
Fixpoint rfind_from (c : ascii) (l : list ascii) (i last : Z) : Z :=
  match l with
  | [] => last
  | x :: l' => rfind_from c l' (i + 1) (if Ascii.eqb x c then i else last)
  end.

Definition rfind (c : ascii) (p : string) : Z :=
  rfind_from c (String.list_ascii_of_string p) 0 (-1).

(** [os.path.splitext] (posixpath): the extension starts at the last dot of
    the last path component, unless only dots precede it there. *)
Definition splitext (p : string) : string * string :=
  let sepIndex := rfind "/" p in
  let dotIndex := rfind "." p in
  if dotIndex >? sepIndex then
    let filenameIndex := Z.to_nat (sepIndex + 1) in
    let stem := String.substring filenameIndex (Z.to_nat dotIndex - filenameIndex) p in
    if existsb (fun a => negb (Ascii.eqb a ".")) (String.list_ascii_of_string stem) then
      (String.substring 0 (Z.to_nat dotIndex) p,
       String.substring (Z.to_nat dotIndex) (String.length p - Z.to_nat dotIndex) p)
    else (p, ""%string)
  else (p, ""%string).

End Fs.

(** ** redaction_agent/agent.py *)

Module Redaction.
Import Py Fs.

(** *** [re.sub]

    The regular-expression engine is a library: [search pattern s pos] is
    the leftmost match of [pattern] in [s] starting at or after [pos], as
    the pair of its start and end offsets. An answer outside the searched
    range, or an empty one, is not a match (none of the patterns below
    matches the empty string). *)
Definition engine : Type := string -> pystr -> nat -> option (nat * nat).

Definition valid_match (s : pystr) (pos : nat) (m : nat * nat) : bool :=
  (pos <=? m.1)%nat && (m.1 <? m.2)%nat && (m.2 <=? length s)%nat.

Definition next_match (search : engine) (pattern : string) (s : pystr) (pos : nat)
    : option (nat * nat) :=
  match search pattern s pos with
  | Some m => if valid_match s pos m then Some m else None
  | None => None
  end.

(** Replace the leftmost non-overlapping matches from [pos] on. Every match
    consumes a character, so [fuel = length s] is never exhausted early. *)
Fixpoint sub_from (search : engine) (pattern : string) (repl s : pystr)
    (fuel pos : nat) : pystr :=
  match fuel with
  | O => drop pos s
  | S fuel' =>
      match next_match search pattern s pos with
      | Some (b, e) =>
          take (b - pos) (drop pos s) ++ repl ++ sub_from search pattern repl s fuel' e
      | None => drop pos s
      end
  end.

Definition re_sub (search : engine) (pattern : string) (repl s : pystr) : pystr :=
  sub_from search pattern repl s (length s) 0.









(** *** [simple_redact_content] *)

(** U+2588 FULL BLOCK *)
Definition block : pychar := 9608%N.

(** ['█' * 10] *)
Definition mask_token : pystr := replicate 10 block.

Definition EMAIL_ADDRESS_pattern : string :=
  "\b[A-Za-z0-9._%+-]+@[A-Za-z0-9.-]+\.[A-Z|a-z]{2,}\b".
Definition PHONE_NUMBER_pattern : string :=
  "\+?1?\s*\(?[0-9]{3}\)?[\s.-]?[0-9]{3}[\s.-]?[0-9]{4}".
Definition CREDIT_CARD_NUMBER_pattern : string :=
  "\b\d{4}[- ]?\d{4}[- ]?\d{4}[- ]?\d{4}\b".
Definition US_SSN_pattern : string :=
  "\b\d{3}-\d{2}-\d{4}\b".
Definition PERSON_NAME_pattern : string :=
  "\b[A-Z][a-z]+ [A-Z][a-z]+\b".

Definition patterns : gmap string string :=
  list_to_map
    [ ("EMAIL_ADDRESS"%string, EMAIL_ADDRESS_pattern);
      ("PHONE_NUMBER"%string, PHONE_NUMBER_pattern);
      ("CREDIT_CARD_NUMBER"%string, CREDIT_CARD_NUMBER_pattern);
      ("US_SSN"%string, US_SSN_pattern);
      ("PERSON_NAME"%string, PERSON_NAME_pattern) ].

(** One turn of the loop of lines 29-32. *)
Definition redact_type (search : engine) (redacted_content : pystr)
    (pii_type : string) : pystr :=
  match patterns !! pii_type with
  | Some pattern => re_sub search pattern mask_token redacted_content
  | None => redacted_content
  end.

Fixpoint simple_redact_content (search : engine) (content : pystr)
    (pii_types : list string) : pystr :=
  match pii_types with
  | [] => content
  | pii_type :: rest =>
      simple_redact_content search (redact_type search content pii_type) rest
  end.

(** *** [redact_sensitive_data] *)

Record env : Type := {
  re_search : engine;
  GOOGLE_CLOUD_PROJECT : option string;
  (** [DlpServiceClient().deidentify_content(...)].item.value for a project,
      a list of info types and the text *)
  deidentify_content : string -> list string -> pystr -> exc pystr
}.

Record event : Type := {
  file_path : option string;
  file_contents : option pystr;
  pii_findings : list string;
  consent_results : gmap string bool
}.

Record reply : Type := {
  redacted_file_path : option string;
  redacted_pii_types : option (list string);
  status : option string;
  message : option string;
  error : option string
}.

Definition error_only (msg : string) : reply :=
  {| redacted_file_path := None; redacted_pii_types := None; status := None;
     message := None; error := Some msg |}.

Definition error_status (msg : string) : reply :=
  {| redacted_file_path := None; redacted_pii_types := None;
     status := Some "error"%string; message := None; error := Some msg |}.

(** Lines 69-72. *)
Definition pii_to_redact (ev : event) : list string :=
  filter (fun pii_type => default false (consent_results ev !! pii_type) = false)
         (pii_findings ev).

(** Lines 85-130: the primary de-identification service. *)
Definition dlp_redact (e : env) (types : list string) (contents : pystr) : exc pystr :=
  if truthy (GOOGLE_CLOUD_PROJECT e)
  then deidentify_content e (default ""%string (GOOGLE_CLOUD_PROJECT e)) types contents
  else Raise "GOOGLE_CLOUD_PROJECT not set".

Definition redacted_path_of (path : string) : string :=
  ((splitext path).1 +:+ "_redacted" +:+ (splitext path).2)%string.

(** Lines 64-66: the contents the call works on once validation has
    passed. *)
Definition contents_of (fs : filesystem) (ev : event) (path : string) : exc pystr :=
  if truthy_text (file_contents ev) then Ret (default [] (file_contents ev))
  else read_text fs path.

(** Lines 83-136: the text to be written, from the service or, when it
    fails, from the pattern masker. *)
Definition redacted_text (e : env) (contents : pystr) (to_redact : list string)
    : pystr :=
  try_except (dlp_redact e to_redact contents)
             (fun _ => simple_redact_content (re_search e) contents to_redact).

(** Lines 63-148, the part inside the outer [try] that follows the two
    validation returns. *)
Definition redact_body (e : env) (fs : filesystem) (ev : event) (path : string)
    : exc (reply * filesystem) :=
  contents ← contents_of fs ev path;
  match pii_to_redact ev with
  | [] =>
      Ret ({| redacted_file_path := Some path;
              redacted_pii_types := Some [];
              status := Some "success"%string;
              message := Some "No PII to redact (all have consent)"%string;
              error := None |}, fs)
  | to_redact =>
      let redacted_content := redacted_text e contents to_redact in
      let redacted_path := redacted_path_of path in
      fs' ← write_text fs redacted_path redacted_content;
      Ret ({| redacted_file_path := Some redacted_path;
              redacted_pii_types := Some to_redact;
              status := Some "success"%string;
              message := None;
              error := None |}, fs')
  end.

(** The reply, and the file system the call leaves behind. *)
Definition redact_sensitive_data (e : env) (fs : filesystem) (ev : event)
    : reply * filesystem :=
  if negb (truthy (file_path ev)) then
    (error_only "Missing required field: file_path", fs)
  else
    let path := default ""%string (file_path ev) in
    if negb (truthy_text (file_contents ev)) && negb (exists_path fs path) then
      (error_only "File not found and no contents provided", fs)
    else
      try_except (redact_body e fs ev path) (fun msg => (error_status msg, fs)).

(** Both validation tests of lines 57-61 pass. *)
Definition validated (fs : filesystem) (ev : event) : bool :=
  truthy (file_path ev) &&
  (truthy_text (file_contents ev) || exists_path fs (default ""%string (file_path ev))).

Definition success_reply (path : string) (types : list string) : reply :=
  {| redacted_file_path := Some path;
     redacted_pii_types := Some types;
     status := Some "success"%string;
     message := None;
     error := None |}.

Definition nothing_to_redact (path : string) : reply :=
  {| redacted_file_path := Some path;
     redacted_pii_types := Some [];
     status := Some "success"%string;
     message := Some "No PII to redact (all have consent)"%string;
     error := None |}.

(** Validation passes and the text is at hand: a path is given, and either
    contents come with the call or the file can be read. *)
Definition readable_input (fs : filesystem) (ev : event) (path : string)
    (contents : pystr) : Prop :=
  file_path ev = Some path /\ path <> ""%string /\
  contents_of fs ev path = Ret contents.

End Redaction.

(** ** audit_agent/agent.py *)

Module Audit.
Import Py.

Definition AUDIT_LOG_FILE : string := "audit_log.jsonl".
Definition COMPLIANCE_REPORT_FILE : string := "compliance_report.json".

(** An audit entry, as the JSON object it is written as; an object read
    back from the log may lack any of the keys. *)
Record audit_entry : Type := {
  event_type : option string;
  timestamp : option string;
  file_path : option string;
  user_id : option string;
  pii_types_detected : option (list string);
  consent_status : option (gmap string bool);
  redacted_pii_types : option (list string);
  redacted_file_path : option string;
  processing_status : option string;
  compliance_status : option string
}.

(** What [json.loads] makes of a line of the log. *)
Inductive json : Type :=
| JObject (e : audit_entry)
| JOther.                          (* a number, a list, a string, ... *)

Inductive log_line : Type :=
| Malformed                        (* [json.JSONDecodeError] *)
| Parsed (v : json).

(** The value of the rate: the [int] it is for an empty selection, or the
    [float] that [round(compliant / total * 100, 2)] computes in double
    arithmetic, kept as the expression it comes from. *)
Inductive pynum : Type :=
| PyInt (z : Z)
| RoundedPercent (compliant total : nat).

Record summary : Type := {
  total_files_processed : nat;
  compliant_files : nat;
  non_compliant_files : nat;
  compliance_rate : pynum
}.

Record pii_statistics : Type := {
  total_pii_types_detected : nat;
  total_pii_types_redacted : nat;
  all_pii_types_detected : gset string;
  all_pii_types_redacted : gset string
}.

Record compliance_report : Type := {
  report_generated_at : string;
  report_period : string;
  user_id_filter : option string;
  report_summary : summary;
  report_pii_statistics : pii_statistics;
  recent_processing_events : list audit_entry;
  report_compliance_status : string
}.

(** A row of the exported table. *)
Record csv_row : Type := {
  csv_timestamp : option string;
  csv_event_type : option string;
  csv_file_path : option string;
  csv_user_id : option string;
  csv_pii_types_detected : string;
  csv_consent_status : gmap string bool;      (* the cell holds its JSON text *)
  csv_redacted_pii_types : string;
  csv_redacted_file_path : option string;
  csv_processing_status : option string;
  csv_compliance_status : option string
}.

(** The local files of the stage. [None] is a file that does not exist; a
    locked file is one that [open] refuses. The log is a sequence of
    complete lines, each ended by a newline as the lines written here are,
    and a line is kept as what [json.loads] makes of it. The files an
    export writes are files of their own, other than the log and the
    report snapshot. *)
Record storage : Type := {
  audit_log : option (list log_line);
  audit_log_locked : bool;
  report_file_content : option compliance_report;
  report_file_locked : bool;
  csv_files : gmap string (list csv_row);
  csv_locked : gset string
}.

Definition set_audit_log (st : storage) (lines : list log_line) : storage :=
  {| audit_log := Some lines;
     audit_log_locked := audit_log_locked st;
     report_file_content := report_file_content st;
     report_file_locked := report_file_locked st;
     csv_files := csv_files st;
     csv_locked := csv_locked st |}.

Definition set_report (st : storage) (r : compliance_report) : storage :=
  {| audit_log := audit_log st;
     audit_log_locked := audit_log_locked st;
     report_file_content := Some r;
     report_file_locked := report_file_locked st;
     csv_files := csv_files st;
     csv_locked := csv_locked st |}.

Definition set_csv (st : storage) (name : string) (rows : list csv_row) : storage :=
  {| audit_log := audit_log st;
     audit_log_locked := audit_log_locked st;
     report_file_content := report_file_content st;
     report_file_locked := report_file_locked st;
     csv_files := <[name := rows]> (csv_files st);
     csv_locked := csv_locked st |}.

Record env : Type := {
  GOOGLE_CLOUD_PROJECT : option string;
  (** [bigquery.Client(project=...)] *)
  bigquery_Client : string -> exc unit;
  (** [insert_rows_json(table_ref, [row])]: the list of errors *)
  insert_rows_json : audit_entry -> exc (list string);
  (** [datetime.now().isoformat()] *)
  now : string
}.

(** *** [AuditLogger] *)

Record AuditLogger : Type := {
  bigquery_client : option unit;
  use_bigquery : bool
}.

(** [AuditLogger.__init__] *)
Definition AuditLogger_init (e : env) : AuditLogger :=
  try_except
    (if truthy (GOOGLE_CLOUD_PROJECT e) then
       client ← bigquery_Client e (default ""%string (GOOGLE_CLOUD_PROJECT e));
       Ret {| bigquery_client := Some client; use_bigquery := true |}
     else Ret {| bigquery_client := None; use_bigquery := false |})
    (fun _ => {| bigquery_client := None; use_bigquery := false |}).

Definition _log_to_bigquery (e : env) (event_data : audit_entry) : bool :=
  try_except
    (errors ← insert_rows_json e event_data;
     Ret (bool_decide (errors = [])))
    (fun _ => false).

(** [open(AUDIT_LOG_FILE, 'a')] then one line written. *)
Definition append_line (st : storage) (event_data : audit_entry) : exc storage :=
  if audit_log_locked st then Raise "OSError"
  else Ret (set_audit_log st (default [] (audit_log st) ++ [Parsed (JObject event_data)])).

Definition _log_to_local_file (st : storage) (event_data : audit_entry)
    : bool * storage :=
  try_except
    (st' ← append_line st event_data; Ret (true, st'))
    (fun _ => (false, st)).

Definition with_timestamp (e : env) (event_data : audit_entry) : audit_entry :=
  match timestamp event_data with
  | Some _ => event_data
  | None =>
      {| event_type := event_type event_data;
         timestamp := Some (now e);
         file_path := file_path event_data;
         user_id := user_id event_data;
         pii_types_detected := pii_types_detected event_data;
         consent_status := consent_status event_data;
         redacted_pii_types := redacted_pii_types event_data;
         redacted_file_path := redacted_file_path event_data;
         processing_status := processing_status event_data;
         compliance_status := compliance_status event_data |}
  end.

(** [AuditLogger.log_audit_event]: the flag returned and the storage
    afterwards. *)
Definition log_audit_event (self : AuditLogger) (e : env) (st : storage)
    (event_data : audit_entry) : bool * storage :=
  let event_data := with_timestamp e event_data in
  if use_bigquery self && bool_decide (is_Some (bigquery_client self)) then
    (_log_to_bigquery e event_data, st)
  else
    _log_to_local_file st event_data.

(** *** [log_file_processing_event] *)

Record redaction_result : Type := {
  rr_redacted_pii_types : option (list string);
  rr_redacted_file_path : option string;
  rr_status : option string
}.

Record processing_event : Type := {
  pe_file_path : option string;
  pe_user_id : option string;
  pe_pii_findings : list string;
  pe_consent_results : gmap string bool;
  pe_redaction_result : redaction_result
}.

Record log_reply : Type := {
  audit_logged : bool;
  audit_entry_logged : option audit_entry;
  log_message : option string;
  log_error : option string
}.

Definition make_audit_entry (e : env) (ev : processing_event) : audit_entry :=
  let rr := pe_redaction_result ev in
  {| event_type := Some "file_processing_completed"%string;
     timestamp := Some (now e);
     file_path := pe_file_path ev;
     user_id := pe_user_id ev;
     pii_types_detected := Some (pe_pii_findings ev);
     consent_status := Some (pe_consent_results ev);
     redacted_pii_types := Some (default [] (rr_redacted_pii_types rr));
     redacted_file_path := rr_redacted_file_path rr;
     processing_status := Some (default "unknown"%string (rr_status rr));
     compliance_status :=
       Some (if bool_decide (rr_status rr = Some "success"%string)
             then "compliant"%string else "non_compliant"%string) |}.

Definition log_file_processing_event (self : AuditLogger) (e : env) (st : storage)
    (ev : processing_event) : log_reply * storage :=
  let entry := make_audit_entry e ev in
  let '(success, st') := log_audit_event self e st entry in
  ({| audit_logged := success;
      audit_entry_logged := Some entry;
      log_message := Some (if success
                           then "File processing event logged successfully"%string
                           else "Failed to log audit event"%string);
      log_error := None |}, st').

(** *** [generate_compliance_report] *)

Record report_request : Type := {
  rq_report_period : option string;
  rq_user_id : option string
}.

Record report_reply : Type := {
  report_generated : bool;
  report_file : option string;
  generated_report : option compliance_report;
  report_error : option string
}.

(** Lines 170-178: the values of the well-formed lines, in order. *)
Definition read_audit_log (st : storage) : exc (list json) :=
  match audit_log st with
  | None => Ret []
  | Some lines =>
      if audit_log_locked st then Raise "OSError"
      else Ret (omap (fun l => match l with
                               | Malformed => None
                               | Parsed v => Some v
                               end) lines)
  end.

(** [entry.get(...)] on each value: one that is not an object has no
    [get]. *)
Fixpoint as_objects (vs : list json) : exc (list audit_entry) :=
  match vs with
  | [] => Ret []
  | JObject e :: vs' => es ← as_objects vs'; Ret (e :: es)
  | JOther :: _ => Raise "AttributeError"
  end.

(** Lines 181-182. *)
Definition filter_by_user (user : option string) (entries : list audit_entry)
    : list audit_entry :=
  if truthy user then filter (fun entry => user_id entry = user) entries
  else entries.

(** [round((compliant / total * 100) if total > 0 else 0, 2)] *)
Definition rate (compliant total : nat) : pynum :=
  if (0 <? total)%nat then RoundedPercent compliant total
  else PyInt 0.

Definition is_compliant (entry : audit_entry) : bool :=
  bool_decide (compliance_status entry = Some "compliant"%string).

Definition union_of (get : audit_entry -> option (list string))
    (entries : list audit_entry) : gset string :=
  foldr (fun entry acc => list_to_set (default [] (get entry)) ∪ acc) ∅ entries.

(** [l[-n:]] *)
Definition last_n {A : Type} (n : nat) (l : list A) : list A :=
  drop (length l - n) l.

(** Lines 185-216. *)
Definition build_report (e : env) (rq : report_request) (entries : list audit_entry)
    : compliance_report :=
  let total := length entries in
  let compliant := length (List.filter is_compliant entries) in
  let non_compliant := (total - compliant)%nat in
  let all_pii_types := union_of pii_types_detected entries in
  let all_redacted_pii := union_of redacted_pii_types entries in
  {| report_generated_at := now e;
     report_period := default "all"%string (rq_report_period rq);
     user_id_filter := rq_user_id rq;
     report_summary :=
       {| total_files_processed := total;
          compliant_files := compliant;
          non_compliant_files := non_compliant;
          compliance_rate := rate compliant total |};
     report_pii_statistics :=
       {| total_pii_types_detected := size all_pii_types;
          total_pii_types_redacted := size all_redacted_pii;
          all_pii_types_detected := all_pii_types;
          all_pii_types_redacted := all_redacted_pii |};
     recent_processing_events := last_n 10 entries;
     report_compliance_status :=
       if (non_compliant =? 0)%nat then "compliant"%string
       else "requires_attention"%string |}.

(** [open(COMPLIANCE_REPORT_FILE, 'w')] then [json.dump]. *)
Definition save_report (st : storage) (r : compliance_report) : exc storage :=
  if report_file_locked st then Raise "OSError"
  else Ret (set_report st r).

(** The entries the report is computed from (lines 170-182). *)
Definition selected_entries (st : storage) (rq : report_request)
    : exc (list audit_entry) :=
  vs ← read_audit_log st;
  entries ← as_objects vs;
  Ret (filter_by_user (rq_user_id rq) entries).

Definition generate_compliance_report (e : env) (st : storage) (rq : report_request)
    : report_reply * storage :=
  try_except
    (entries ← selected_entries st rq;
     let report := build_report e rq entries in
     st' ← save_report st report;
     Ret ({| report_generated := true;
             report_file := Some COMPLIANCE_REPORT_FILE;
             generated_report := Some report;
             report_error := None |}, st'))
    (fun msg => ({| report_generated := false;
                    report_file := None;
                    generated_report := None;
                    report_error := Some msg |}, st)).

(** *** [export_audit_to_csv] *)

Record export_reply : Type := {
  exported : bool;
  output_file : option string;
  entries_exported : option nat;
  export_error : option string
}.

(** [', '.join(l)] *)
Fixpoint join_comma (l : list string) : string :=
  match l with
  | [] => ""
  | [x] => x
  | x :: rest => x +:+ ", " +:+ join_comma rest
  end.

(** Lines 284-295. *)
Definition flatten (entry : audit_entry) : csv_row :=
  {| csv_timestamp := timestamp entry;
     csv_event_type := event_type entry;
     csv_file_path := file_path entry;
     csv_user_id := user_id entry;
     csv_pii_types_detected := join_comma (default [] (pii_types_detected entry));
     csv_consent_status := default ∅ (consent_status entry);
     csv_redacted_pii_types := join_comma (default [] (redacted_pii_types entry));
     csv_redacted_file_path := redacted_file_path entry;
     csv_processing_status := processing_status entry;
     csv_compliance_status := compliance_status entry |}.

Definition export_failed (msg : string) : export_reply :=
  {| exported := false; output_file := None; entries_exported := None;
     export_error := Some msg |}.

(** The rows written by the loop of lines 282-296, and the exception that
    stopped it, if any: a value that is not an object has no [get]. *)
Fixpoint flatten_rows (vs : list json) : list csv_row * option string :=
  match vs with
  | [] => ([], None)
  | JObject entry :: vs' =>
      let '(rows, err) := flatten_rows vs' in (flatten entry :: rows, err)
  | JOther :: _ => ([], Some "AttributeError"%string)
  end.

Definition export_audit_to_csv (st : storage) (requested_file : option string)
    : export_reply * storage :=
  let name := default "audit_export.csv"%string requested_file in
  match audit_log st with
  | None => (export_failed "No audit log file found", st)
  | Some _ =>
      match read_audit_log st with
      | Raise msg => (export_failed msg, st)
      | Ret [] => (export_failed "No audit entries found", st)
      | Ret vs =>
          if bool_decide (name ∈ csv_locked st) then (export_failed "OSError", st)
          else
            let '(rows, err) := flatten_rows vs in
            let st' := set_csv st name rows in
            match err with
            | Some msg => (export_failed msg, st')
            | None =>
                ({| exported := true;
                    output_file := Some name;
                    entries_exported := Some (length vs);
                    export_error := None |}, st')
            end
      end
  end.

End Audit.

(** ** watchdog_agent/agent.py *)

Module Watchdog.
Import Py Fs.

Definition WATCHED_DIR : string := "watched_dir".

(** The slot of [FileIngestionHandler]. *)
Record fs_event : Type := {
  fe_event_type : string;
  fe_file_path : string;
  fe_timestamp : string
}.

(** The module-level state: the handler's slot and the observer. *)
Record state : Type := {
  latest_event : option fs_event;
  observer : option unit
}.

(** A notification of the file-system watcher. *)
Record notification : Type := {
  is_directory : bool;
  src_path : string
}.

Definition on_created (st : state) (n : notification) (now : string) : state :=
  if is_directory n then st
  else {| latest_event := Some {| fe_event_type := "file_created";
                                  fe_file_path := src_path n;
                                  fe_timestamp := now |};
          observer := observer st |}.

Definition on_modified (st : state) (n : notification) (now : string) : state :=
  if is_directory n then st
  else {| latest_event := Some {| fe_event_type := "file_modified";
                                  fe_file_path := src_path n;
                                  fe_timestamp := now |};
          observer := observer st |}.

(** What the stage functions hand back: an event payload, or a record with
    [error], [message] or [status]. *)
Record reply : Type := {
  event_type : option string;
  file_path : option string;
  user_id : option string;
  timestamp : option string;
  error : option string;
  message : option string;
  status : option string
}.

Definition payload (path user time : string) : reply :=
  {| event_type := Some "new_file_ingested"%string;
     file_path := Some path;
     user_id := Some user;
     timestamp := Some time;
     error := None; message := None; status := None |}.

Definition note (err msg stat : option string) : reply :=
  {| event_type := None; file_path := None; user_id := None; timestamp := None;
     error := err; message := msg; status := stat |}.

Definition start_file_monitoring (st : state) : reply * state :=
  match observer st with
  | None =>
      (note None (Some "File monitoring is now active"%string)
            (Some "monitoring_started"%string),
       {| latest_event := latest_event st; observer := Some tt |})
  | Some _ =>
      (note None (Some "File monitoring is already active"%string)
            (Some "already_monitoring"%string), st)
  end.

Definition stop_file_monitoring (st : state) : reply * state :=
  match observer st with
  | Some _ =>
      (note None (Some "File monitoring has been stopped"%string)
            (Some "monitoring_stopped"%string),
       {| latest_event := latest_event st; observer := None |})
  | None =>
      (note None (Some "File monitoring was not active"%string)
            (Some "not_monitoring"%string), st)
  end.

(** [os.path.basename] (posixpath): what follows the last slash. *)
Definition basename (p : string) : string :=
  let i := Z.to_nat (rfind "/" p + 1) in
  String.substring i (String.length p - i) p.

(** [os.path.join(WATCHED_DIR, name)] for a relative [name]. *)
Definition in_watched_dir (name : string) : string :=
  (WATCHED_DIR +:+ "/" +:+ name)%string.

(** [shutil.copy2] onto a destination that is a file name, not a
    directory: a file is not copied onto itself; otherwise the source is
    read and the destination written. *)
Definition copy2 (fs : filesystem) (src dst : string) : exc filesystem :=
  if bool_decide (src = dst) && exists_path fs src then Raise "SameFileError"
  else
    content ← read_text fs src;
    write_text fs dst content.

(** [upload_file]. Nothing here is inside a [try]. *)
Definition upload_file (fs : filesystem) (now : string) (source_path : string)
    (user : string) : exc (reply * filesystem) :=
  let filename := basename source_path in
  let dest_path := in_watched_dir filename in
  fs' ← copy2 fs source_path dest_path;
  Ret (payload dest_path user now, fs').

(** What [os.path.exists], [os.listdir] and [os.path.getctime] report about
    the watched directory: the names it holds, each with its creation
    time. *)
Inductive directory : Type :=
| NoDirectory
| Unlistable                                    (* [os.listdir] raises *)
| Listing (files : list (string * Z)).

(** [max(files, key=ctime)]: the first of the entries with the greatest
    key. *)
Fixpoint max_by_ctime (best : string * Z) (files : list (string * Z)) : string * Z :=
  match files with
  | [] => best
  | f :: rest => max_by_ctime (if best.2 <? f.2 then f else best) rest
  end.

(** [monitor_watched_directory]. *)
Definition monitor_watched_directory (st : state) (dir : directory) (now : string)
    : exc (reply * state) :=
  match dir with
  | NoDirectory =>
      Ret (note (Some "Watched directory does not exist"%string) None None, st)
  | _ =>
      match latest_event st with
      | Some event =>
          Ret (payload (fe_file_path event) "user123" (fe_timestamp event),
               {| latest_event := None; observer := observer st |})
      | None =>
          match dir with
          | Listing [] =>
              Ret (note None (Some "No files found in watched directory"%string) None, st)
          | Listing (f :: rest) =>
              let latest_file := (max_by_ctime f rest).1 in
              Ret (payload (in_watched_dir latest_file) "user123" now, st)
          | _ => Raise "OSError"
          end
      end
  end.

End Watchdog.

(** ** data_detection_agent/agent.py *)

Module Detection.
Import Py Fs.

Definition entities : list string :=
  [ "PERSON_NAME"; "EMAIL_ADDRESS"; "PHONE_NUMBER"; "CREDIT_CARD_NUMBER";
    "US_SSN"; "US_DRIVER_LICENSE"; "US_PASSPORT" ]%string.

Record reply : Type := {
  pii_findings : list string;
  status : string
}.

(** [list(set(...))], in the order the set enumerates. *)
Definition unique (l : list string) : list string :=
  elements (list_to_set l : gset string).

(** [detect_data]; [analyze text entities] is the detection engine's
    answer, the entity type of every result. Nothing here is inside a
    [try]. *)
Definition detect_data (analyze : pystr -> list string -> exc (list string))
    (fs : filesystem) (file_path : option string) : exc reply :=
  match file_path with
  | None => Raise "TypeError"
  | Some path =>
      content ← read_text fs path;
      results ← analyze content entities;
      Ret {| pii_findings := unique results; status := "scanned" |}
  end.

End Detection.

(** ** Sample inputs for the ingestion and detection stages *)

Module IngestionSamples.
Import Py Fs Watchdog.

Definition idle : state := {| latest_event := None; observer := Some tt |}.

(** A file of another user has just been created in the watched
    directory. *)
Definition pending : state :=
  on_created idle {| is_directory := false; src_path := "watched_dir/alice_taxes.txt" |}
             "2025-01-01T09:00:00".

Definition two_files : directory :=
  Listing [("old.txt"%string, 10); ("alice_taxes.txt"%string, 20)].

Definition no_files : filesystem := {| nodes := ∅; unwritable := ∅ |}.

Definition no_analysis : pystr -> list string -> exc (list string) :=
  fun _ _ => Ret [].

(** A file waiting outside the watched directory, and one already in it. *)
Definition inbox_fs : filesystem :=
  {| nodes := {[ "inbox/alice_taxes.txt"%string := File (of_ascii "SSN 123-45-6789");
                 "watched_dir/old.txt"%string := File (of_ascii "nothing") ]};
     unwritable := ∅ |}.

End IngestionSamples.

(** ** A backtracking matcher for the five fallback patterns

    An executable instance of the engine, enough to run the masker on
    sample text. Character classes are decided on ASCII: on code points
    above 127 the Unicode-aware classes of the library (digits, spaces and
    word characters of other scripts) are not reproduced. *)

Module Regex.
Import Py.

Inductive regex : Type :=
| Eps
| Cls (p : pychar -> bool)
| Cat (r1 r2 : regex)
| Opt (r : regex)
| Star (r : regex)
| WordB.

Definition between (lo hi : N) (c : pychar) : bool := ((lo <=? c) && (c <=? hi))%N.
Definition chr (a : ascii) (c : pychar) : bool := (c =? N_of_ascii a)%N.
Definition one_of (l : list ascii) (c : pychar) : bool := existsb (fun a => chr a c) l.

Definition digit : pychar -> bool := between 48 57.
Definition upper : pychar -> bool := between 65 90.
Definition lower : pychar -> bool := between 97 122.
Definition alnum (c : pychar) : bool := upper c || lower c || digit c.
(** [\s]: space, tab, newline, vertical tab, form feed, carriage return,
    and the separators 28..31. *)
Definition space (c : pychar) : bool := (c =? 32)%N || between 9 13 c || between 28 31 c.
(** [\w] *)
Definition word (c : pychar) : bool := alnum c || chr "_" c.

Definition is_word (o : option pychar) : bool :=
  match o with
  | Some c => word c
  | None => false
  end.

(** [match r k prev rest pos]: match [r] at offset [pos], where [prev] is
    the character before and [rest] the text from [pos] on, then hand over
    to the continuation [k]; the answer is the end offset of the whole
    match. Alternatives are tried greedily, longest repetition first. *)
Fixpoint run (r : regex) (k : option pychar -> pystr -> nat -> option nat)
    (prev : option pychar) (rest : pystr) (pos : nat) : option nat :=
  match r with
  | Eps => k prev rest pos
  | Cls p =>
      match rest with
      | c :: rest' => if p c then k (Some c) rest' (S pos) else None
      | [] => None
      end
  | Cat r1 r2 => run r1 (run r2 k) prev rest pos
  | Opt r1 =>
      match run r1 k prev rest pos with
      | Some e => Some e
      | None => k prev rest pos
      end
  | Star r1 =>
      (fix loop (fuel : nat) (prev : option pychar) (rest : pystr) (pos : nat)
         : option nat :=
         match fuel with
         | O => k prev rest pos
         | S fuel' =>
             match run r1 (fun prev' rest' pos' =>
                             if (pos <? pos')%nat then loop fuel' prev' rest' pos'
                             else None) prev rest pos with
             | Some e => Some e
             | None => k prev rest pos
             end
         end) (length rest) prev rest pos
  | WordB =>
      if xorb (is_word prev) (is_word (head rest)) then k prev rest pos else None
  end.

Definition accept (_ : option pychar) (_ : pystr) (pos : nat) : option nat := Some pos.

(** The leftmost match starting at [pos] or later. *)
Fixpoint search_at (r : regex) (prev : option pychar) (rest : pystr) (pos : nat)
    : option (nat * nat) :=
  match run r accept prev rest pos with
  | Some e => Some (pos, e)
  | None =>
      match rest with
      | [] => None
      | c :: rest' => search_at r (Some c) rest' (S pos)
      end
  end.

Definition search (r : regex) (s : pystr) (pos : nat) : option (nat * nat) :=
  search_at r (last (take pos s)) (drop pos s) pos.

Fixpoint cat (rs : list regex) : regex :=
  match rs with
  | [] => Eps
  | [r] => r
  | r :: rs' => Cat r (cat rs')
  end.

Definition plus (r : regex) : regex := Cat r (Star r).
Definition times (n : nat) (r : regex) : regex := cat (replicate n r).
Definition at_least (n : nat) (r : regex) : regex := Cat (times n r) (Star r).

(** [\b[A-Za-z0-9._%+-]+@[A-Za-z0-9.-]+\.[A-Z|a-z]{2,}\b] *)
Definition email_re : regex :=
  cat [ WordB;
        plus (Cls (fun c => alnum c || one_of ["."; "_"; "%"; "+"; "-"]%char c));
        Cls (chr "@");
        plus (Cls (fun c => alnum c || one_of ["."; "-"]%char c));
        Cls (chr ".");
        at_least 2 (Cls (fun c => upper c || chr "|" c || lower c));
        WordB ].

(** [\+?1?\s*\(?[0-9]{3}\)?[\s.-]?[0-9]{3}[\s.-]?[0-9]{4}] *)
Definition phone_re : regex :=
  cat [ Opt (Cls (chr "+"));
        Opt (Cls (chr "1"));
        Star (Cls space);
        Opt (Cls (chr "("));
        times 3 (Cls digit);
        Opt (Cls (chr ")"));
        Opt (Cls (fun c => space c || one_of ["."; "-"]%char c));
        times 3 (Cls digit);
        Opt (Cls (fun c => space c || one_of ["."; "-"]%char c));
        times 4 (Cls digit) ].

(** [\b\d{4}[- ]?\d{4}[- ]?\d{4}[- ]?\d{4}\b] *)
Definition credit_card_re : regex :=
  cat [ WordB;
        times 4 (Cls digit); Opt (Cls (one_of ["-"; " "]%char));
        times 4 (Cls digit); Opt (Cls (one_of ["-"; " "]%char));
        times 4 (Cls digit); Opt (Cls (one_of ["-"; " "]%char));
        times 4 (Cls digit);
        WordB ].

(** [\b\d{3}-\d{2}-\d{4}\b] *)
Definition ssn_re : regex :=
  cat [ WordB;
        times 3 (Cls digit); Cls (chr "-");
        times 2 (Cls digit); Cls (chr "-");
        times 4 (Cls digit);
        WordB ].

(** [\b[A-Z][a-z]+ [A-Z][a-z]+\b] *)
Definition person_name_re : regex :=
  cat [ WordB;
        Cls upper; plus (Cls lower); Cls (chr " ");
        Cls upper; plus (Cls lower);
        WordB ].

(** The compiled form of each pattern text of the masker. *)
Definition compiled : gmap string regex :=
  list_to_map
    [ (Redaction.EMAIL_ADDRESS_pattern, email_re);
      (Redaction.PHONE_NUMBER_pattern, phone_re);
      (Redaction.CREDIT_CARD_NUMBER_pattern, credit_card_re);
      (Redaction.US_SSN_pattern, ssn_re);
      (Redaction.PERSON_NAME_pattern, person_name_re) ].

Definition re_engine : Redaction.engine :=
  fun pattern s pos =>
    match compiled !! pattern with
    | Some r => search r s pos
    | None => None
    end.

End Regex.

(** ** Sample inputs for the redaction stage *)

Module RedactionSamples.
Import Py Fs Redaction.

(** No project is configured, so the de-identification service is never
    reached and the pattern masker does the work. *)
Definition local_env : env :=
  {| re_search := Regex.re_engine;
     GOOGLE_CLOUD_PROJECT := None;
     deidentify_content := fun _ _ _ => Raise "unreachable" |}.

Definition letter : pystr :=
  of_ascii "Contact John Smith at john.smith@example.com or +1 (555) 123-4567, SSN 123-45-6789.".


Definition empty_fs : filesystem := {| nodes := ∅; unwritable := ∅ |}.

Definition intake_fs : filesystem :=
  {| nodes := {[ "watched_dir/letter.txt"%string := File letter ]};
     unwritable := ∅ |}.

(** The intake file is there, but its redacted sibling cannot be opened for
    writing. *)
Definition readonly_fs : filesystem :=
  {| nodes := {[ "watched_dir/letter.txt"%string := File letter ]};
     unwritable := {[ "watched_dir/letter_redacted.txt"%string ]} |}.

(** User u1 of the specification's scenario: consent for the e-mail address
    only. *)
Definition u1_event : event :=
  {| file_path := Some "watched_dir/letter.txt"%string;
     file_contents := None;
     pii_findings := ["EMAIL_ADDRESS"; "PHONE_NUMBER"]%string;
     consent_results := {[ "EMAIL_ADDRESS"%string := true ]} |}.

(** Every finding is consented to. *)
Definition consented_event (path : option string) : event :=
  {| file_path := path;
     file_contents := None;
     pii_findings := ["EMAIL_ADDRESS"]%string;
     consent_results := {[ "EMAIL_ADDRESS"%string := true ]} |}.

(** A finding without consent, of a type the masker has no pattern for. *)
Definition passport_event : event :=
  {| file_path := Some "watched_dir/letter.txt"%string;
     file_contents := None;
     pii_findings := ["US_PASSPORT"]%string;
     consent_results := ∅ |}.

Definition ssn_event (path : option string) : event :=
  {| file_path := path;
     file_contents := None;
     pii_findings := ["US_SSN"]%string;
     consent_results := ∅ |}.

End RedactionSamples.

(** ** Sample inputs for the audit and ingestion stages *)

Module AuditSamples.
Import Py Audit.

(** A project is configured and the client is created, but every insert
    comes back with an error. *)
Definition failing_sink_env : env :=
  {| GOOGLE_CLOUD_PROJECT := Some "privacy-project"%string;
     bigquery_Client := fun _ => Ret tt;
     insert_rows_json := fun _ => Ret ["table audit_events not found"%string];
     now := "2025-01-01T00:00:00"%string |}.

(** No project is configured. *)
Definition local_only_env : env :=
  {| GOOGLE_CLOUD_PROJECT := None;
     bigquery_Client := fun _ => Raise "unreachable";
     insert_rows_json := fun _ => Raise "unreachable";
     now := "2025-01-01T00:00:00"%string |}.

Definition fresh_storage : storage :=
  {| audit_log := None; audit_log_locked := false;
     report_file_content := None; report_file_locked := false;
     csv_files := ∅; csv_locked := ∅ |}.

Definition finished_run : processing_event :=
  {| pe_file_path := Some "watched_dir/letter.txt"%string;
     pe_user_id := Some "user123"%string;
     pe_pii_findings := ["PHONE_NUMBER"%string];
     pe_consent_results := {[ "PHONE_NUMBER"%string := false ]};
     pe_redaction_result :=
       {| rr_redacted_pii_types := Some ["PHONE_NUMBER"%string];
          rr_redacted_file_path := Some "watched_dir/letter_redacted.txt"%string;
          rr_status := Some "success"%string |} |}.

(** A log holding one run of user123 and a line that does not parse. *)
Definition one_run_storage : storage :=
  {| audit_log := Some [Parsed (JObject (make_audit_entry local_only_env finished_run));
                        Malformed];
     audit_log_locked := false;
     report_file_content := None; report_file_locked := false;
     csv_files := ∅; csv_locked := ∅ |}.

Definition report_for (user : option string) : report_request :=
  {| rq_report_period := None; rq_user_id := user |}.

End AuditSamples.

(** ** A pointwise reading of the consent check *)

Module ConsentReference.
Import Py Consent.

(** The document of the primary store answers for every requested type:
    none of the entries met by the loop makes it raise. *)
Definition primary_usable (now : Z) (d : gmap string doc_value) (ts : list string)
    : bool :=
  forallb (fun t => match primary_consent now d t with
                    | Ret _ => true
                    | Raise _ => false
                    end) ts.

(** The consent the check settles on for one type [t] of the request
    [ts]: the primary store's answer when the whole request can be
    answered from it, the local table's flag otherwise. *)
Definition resolved (e : env) (u : string) (ts : list string) (t : string) : bool :=
  match firestore e (collection e) u with
  | Document d =>
      if primary_usable (utcnow e) d ts then
        match primary_consent (utcnow e) d t with
        | Ret b => b
        | Raise _ => false
        end
      else local_granted (local_db e) u t
  | _ => local_granted (local_db e) u t
  end.

(** A primary store that knows user u3: a lasting grant for the e-mail
    address, a grant for the phone number that ran out at time 100, and a
    passport entry whose expiry cannot be compared with the clock. *)
Definition u3_document : gmap string doc_value :=
  list_to_map
    [ ("EMAIL_ADDRESS"%string, Fields {| granted := Some true; valid_until := Unset |});
      ("PHONE_NUMBER"%string, Fields {| granted := Some true; valid_until := At 100 |});
      ("US_PASSPORT"%string, Fields {| granted := Some true; valid_until := Incomparable |}) ].

Definition online_env : env :=
  {| local_db := LOCAL_CONSENT_DB;
     FIRESTORE_CONSENT_COLLECTION := Some "consents"%string;
     firestore := fun coll u =>
       if bool_decide (coll = "consents"%string) && bool_decide (u = "u3"%string)
       then Document u3_document else NoDocument;
     utcnow := 200 |}.

Definition single (u t : string) : single_event :=
  {| se_user_id := Some u; se_data_type := Some t |}.

End ConsentReference.

(** ** More sample inputs for the redaction stage *)

Module RedactionInputs.
Import Py Fs Redaction.

(** The same event with other contents. *)
Definition with_contents (ev : event) (contents : option pystr) : event :=
  {| file_path := file_path ev;
     file_contents := contents;
     pii_findings := pii_findings ev;
     consent_results := consent_results ev |}.

(** A project is configured and the service answers with a text of its
    own. *)
Definition serviced_env : env :=
  {| re_search := Regex.re_engine;
     GOOGLE_CLOUD_PROJECT := Some "privacy-project"%string;
     deidentify_content := fun _ _ _ => Ret (of_ascii "[redacted by the service]") |}.

(** No project: the service field is never called, whatever it is. *)
Definition unconfigured_env : env :=
  {| re_search := Regex.re_engine;
     GOOGLE_CLOUD_PROJECT := Some ""%string;
     deidentify_content := fun _ _ _ => Ret (of_ascii "[never used]") |}.

Definition inline_event : event :=
  {| file_path := Some "outbox/note.txt"%string;
     file_contents := Some (of_ascii "SSN 123-45-6789");
     pii_findings := ["US_SSN"%string];
     consent_results := ∅ |}.

Definition plain_note : pystr := of_ascii "Nothing personal in here.".

End RedactionInputs.

(** ** More sample inputs for the audit stage *)

Module AuditInputs.
Import Py Audit.

Definition failed_run : processing_event :=
  {| pe_file_path := Some "watched_dir/broken.txt"%string;
     pe_user_id := Some "u7"%string;
     pe_pii_findings := ["US_SSN"%string];
     pe_consent_results := ∅;
     pe_redaction_result :=
       {| rr_redacted_pii_types := None;
          rr_redacted_file_path := None;
          rr_status := Some "error"%string |} |}.

(** The local logger: no analytical sink. *)
Definition local_logger : AuditLogger :=
  AuditLogger_init AuditSamples.local_only_env.

(** A log with a run of user123, a line that does not parse and a failed
    run of u7. *)
Definition mixed_storage : storage :=
  {| audit_log :=
       Some [ Parsed (JObject (make_audit_entry AuditSamples.local_only_env
                                 AuditSamples.finished_run));
              Malformed;
              Parsed (JObject (make_audit_entry AuditSamples.local_only_env failed_run)) ];
     audit_log_locked := false;
     report_file_content := None; report_file_locked := false;
     csv_files := ∅; csv_locked := ∅ |}.

(** A sink that takes every row. *)
Definition working_sink_env : env :=
  {| GOOGLE_CLOUD_PROJECT := Some "privacy-project"%string;
     bigquery_Client := fun _ => Ret tt;
     insert_rows_json := fun _ => Ret [];
     now := "2025-01-01T00:00:00"%string |}.

(** An entry handed to the logger without a timestamp. *)
Definition untimed_entry : audit_entry :=
  {| event_type := Some "file_processing_completed"%string;
     timestamp := None;
     file_path := Some "watched_dir/letter.txt"%string;
     user_id := Some "user123"%string;
     pii_types_detected := Some [];
     consent_status := Some ∅;
     redacted_pii_types := Some [];
     redacted_file_path := None;
     processing_status := Some "success"%string;
     compliance_status := Some "compliant"%string |}.

End AuditInputs.

(** ** From the consent reply to the redaction event *)

Module Handover.

(** The redaction stage reads [consent_results] from its event, taking an
    empty dictionary when the key is missing; the event carries what the
    consent reply holds under that key. *)
Definition redaction_event (path : option string) (contents : option Py.pystr)
    (findings : list string) (r : Consent.reply) : Redaction.event :=
  {| Redaction.file_path := path;
     Redaction.file_contents := contents;
     Redaction.pii_findings := findings;
     Redaction.consent_results := default ∅ (Consent.consent_results r) |}.

(** A detection engine that reports the same type several times. *)
Definition repeating_engine : Py.pystr -> list string -> Py.exc (list string) :=
  fun _ _ => Py.Ret ["EMAIL_ADDRESS"; "US_SSN"; "EMAIL_ADDRESS"]%string.

Definition created (path : string) : Watchdog.notification :=
  {| Watchdog.is_directory := false; Watchdog.src_path := path |}.

End Handover.

(** * Properties *)

(** ** Consent check *)

Module ConsentFacts.
Import Py Consent.

(** After the fallback loop every requested type holds the local table's
    [granted] flag; other keys keep what they had. *)
Lemma fallback_loop_lookup db u ts acc t :
  fallback_loop db u ts acc !! t =
    if decide (t ∈ ts) then Some (local_granted db u t) else acc !! t.
Proof.
  revert acc. induction ts as [|t' ts IH]; intros acc; cbn [fallback_loop].
  - rewrite decide_False; [done | apply not_elem_of_nil].
  - rewrite IH. destruct (decide (t ∈ ts)) as [Hin|Hin].
    + rewrite decide_True; [done | by right].
    + destruct (decide (t = t')) as [->|Hne].
      * rewrite decide_True; [| by left]. by rewrite lookup_insert_eq.
      * rewrite decide_False; [by rewrite lookup_insert_ne |].
        intros [?|?]%elem_of_cons; contradiction.
Qed.

(** A run of the primary loop that ends without an exception has stored,
    for every requested type, the value computed from the document. *)
Lemma primary_loop_done now d ts acc acc' t :
  primary_loop now d ts acc = (acc', None) ->
  t ∈ ts ->
  exists b, primary_consent now d t = Ret b /\ acc' !! t = Some b.
Proof.
  revert acc. induction ts as [|t' ts IH]; intros acc Hrun Hin.
  - by apply elem_of_nil in Hin.
  - simpl in Hrun. destruct (primary_consent now d t') as [b'|e] eqn:Hc; [|done].
    destruct (decide (t ∈ ts)) as [Hts|Hts]; [by eapply IH |].
    apply elem_of_cons in Hin as [->|Hin]; [|contradiction].
    exists b'. split; [done |].
    clear IH Hc. revert acc Hrun. induction ts as [|t'' ts IH]; intros acc Hrun.
    + simpl in Hrun. injection Hrun as <-. by rewrite lookup_insert_eq.
    + simpl in Hrun. destruct (primary_consent now d t'') as [b''|e] eqn:Hc; [|done].
      apply not_elem_of_cons in Hts as [Hne Hts].
      rewrite insert_insert_ne in Hrun by done.
      by apply (IH Hts (<[t'':=b'']> acc)).
Qed.

Lemma primary_consent_absent now d t :
  d !! t = None -> primary_consent now d t = Ret false.
Proof. intros H. unfold primary_consent. by rewrite H. Qed.

Lemma local_granted_absent db u t :
  (forall per_user, db !! u = Some per_user -> per_user !! t = None) ->
  local_granted db u t = false.
Proof.
  intros H. unfold local_granted.
  destruct (db !! u) as [m|] eqn:Hu; [|done]. by rewrite (H m eq_refl).
Qed.


(** C1. For a call with a non-empty user id and a non-empty list of PII
    types, a requested type that has no entry in the user's document of the
    primary store (when there is one) and no entry in the local fallback
    table is reported with consent [false]. *)
Theorem verify_consent_fail_closed (e : env) (ev : event) (u t : string) (ts : list string) :
  user_id ev = Some u -> u <> ""%string ->
  pii_findings ev = Some ts -> ts <> [] ->
  t ∈ ts ->
  no_primary_entry e u t ->
  no_local_entry e u t ->
  exists results,
    consent_results (verify_consent_for_pii_types e ev) = Some results /\
    results !! t = Some false.
Proof.
  intros Hu Hne Hts Hnil Hin Hprim Hloc.
  unfold verify_consent_for_pii_types. rewrite Hu, Hts. simpl.
  rewrite !bool_decide_eq_false_2 by done. simpl.
  eexists. split; [reflexivity |].
  assert (Hfb : forall acc, fallback_loop (local_db e) u ts acc !! t = Some false).
  { intros acc. rewrite fallback_loop_lookup, decide_True by done.
    f_equal. by apply local_granted_absent. }
  destruct (firestore e (collection e) u) as [msg| |d] eqn:Hstore; [done | done |].
  destruct (primary_loop (utcnow e) d ts ∅) as [acc [err|]] eqn:Hrun; [done |].
  destruct (primary_loop_done _ _ _ _ _ t Hrun Hin) as (b & Hb & Hacc).
  rewrite primary_consent_absent in Hb by eauto.
  by injection Hb as <-.
Qed.

Lemma verify_consent_fail_closed_witness :
  exists results,
    consent_results
      (verify_consent_for_pii_types offline_env (request "u2" ["US_SSN"%string]))
      = Some results /\
    results !! "US_SSN"%string = Some false.
Proof.
  apply (verify_consent_fail_closed offline_env _ "u2"%string "US_SSN"%string
           ["US_SSN"%string]).
  - reflexivity.
  - discriminate.
  - reflexivity.
  - discriminate.
  - apply list_elem_of_singleton. reflexivity.
  - intros d Hd. discriminate Hd.
  - intros per_user Hu. vm_compute in Hu. discriminate Hu.
Defined.







End ConsentFacts.

(** ** Pattern masker *)

Module MaskerFacts.
Import Py Fs Redaction.

Section Sub.
Context (search : engine) (pattern : string) (s : pystr).









End Sub.


Lemma redact_type_no_pattern search content t :
  patterns !! t = None -> redact_type search content t = content.
Proof. intros H. unfold redact_type. by rewrite H. Qed.

(** Types without a pattern do not take part in the masking. *)
Lemma simple_redact_content_filter search content ts :
  simple_redact_content search content ts =
  simple_redact_content search content
    (filter (fun t => is_Some (patterns !! t)) ts).
Proof.
  revert content. induction ts as [|t ts IH]; intros content; simpl; [done |].
  destruct (patterns !! t) as [p|] eqn:Hp.
  - rewrite filter_cons_True by (rewrite Hp; eauto). simpl. apply IH.
  - rewrite filter_cons_False by (rewrite Hp; by intros [? ?]).
    rewrite redact_type_no_pattern by done. apply IH.
Qed.

(** With no pattern for any of the types the text comes back unchanged. *)
Lemma simple_redact_content_no_patterns search content ts :
  (forall t, t ∈ ts -> patterns !! t = None) ->
  simple_redact_content search content ts = content.
Proof.
  intros Hnone. induction ts as [|t ts IH]; simpl; [done |].
  rewrite redact_type_no_pattern by (apply Hnone; by left).
  apply IH. intros t' Hin. apply Hnone. by right.
Qed.






End MaskerFacts.

(** ** Redaction stage *)

Module RedactionFacts.
Import Py Fs Redaction.

(** The redact set is empty exactly when every finding is consented to. *)
Lemma pii_to_redact_nil ev :
  pii_to_redact ev = [] <->
  forall t, t ∈ pii_findings ev -> consent_results ev !! t = Some true.
Proof.
  unfold pii_to_redact. split.
  - intros Hnil t Hin.
    destruct (consent_results ev !! t) as [[]|] eqn:Hc; [done | |];
      (assert (t ∈ @nil string) as Hbad;
       [rewrite <- Hnil; apply list_elem_of_filter; by rewrite Hc
       | by apply elem_of_nil in Hbad]).
  - intros Hall. induction (pii_findings ev) as [|t ts IH]; [done |].
    rewrite filter_cons_False.
    + apply IH. intros t' Hin. apply Hall. by right.
    + rewrite (Hall t) by (by left). done.
Qed.

Lemma readable_input_run e fs ev path contents :
  readable_input fs ev path contents ->
  redact_sensitive_data e fs ev =
    try_except (redact_body e fs ev path) (fun msg => (error_status msg, fs)) /\
  redact_body e fs ev path =
    match pii_to_redact ev with
    | [] =>
        Ret ({| redacted_file_path := Some path;
                redacted_pii_types := Some [];
                status := Some "success"%string;
                message := Some "No PII to redact (all have consent)"%string;
                error := None |}, fs)
    | to_redact =>
        let redacted_content :=
          try_except (dlp_redact e to_redact contents)
                     (fun _ => simple_redact_content (re_search e) contents to_redact) in
        fs' ← write_text fs (redacted_path_of path) redacted_content;
        Ret ({| redacted_file_path := Some (redacted_path_of path);
                redacted_pii_types := Some to_redact;
                status := Some "success"%string;
                message := None;
                error := None |}, fs')
    end.
Proof.
  intros (Hpath & Hne & Hc). split.
  - unfold redact_sensitive_data. rewrite Hpath. simpl.
    rewrite bool_decide_eq_false_2 by done. simpl.
    destruct (truthy_text (file_contents ev)) eqn:Ht; simpl; [done |].
    assert (exists_path fs path = true) as ->; [|done].
    unfold exists_path. apply bool_decide_eq_true_2.
    unfold contents_of, read_text in Hc. rewrite Ht in Hc.
    destruct (nodes fs !! path); [eauto | done].
  - unfold redact_body. rewrite Hc. done.
Qed.

Lemma write_text_can_write fs p c :
  write_text fs p c =
    if can_write fs p
    then Ret {| nodes := <[p := File c]> (nodes fs); unwritable := unwritable fs |}
    else Raise "OSError".
Proof.
  unfold write_text, can_write. case_bool_decide; simpl; [done |].
  destruct (nodes fs !! p) as [[c'|]|]; simpl; try done.
Qed.

(** With every finding consented to, the call leaves the file system as it
    found it. *)
Lemma all_consented_no_write e fs ev :
  pii_to_redact ev = [] -> (redact_sensitive_data e fs ev).2 = fs.
Proof.
  intros Hnil. unfold redact_sensitive_data.
  destruct (negb (truthy (file_path ev))); [done |].
  destruct (_ && _); [done |].
  unfold redact_body. rewrite Hnil.
  destruct (contents_of fs ev _); done.
Qed.

(** C5 (amended). For a call in which every finding maps to [true] in
    [consent_results], no file is written; and when the call passes
    validation (a path is given, and contents are supplied or the file can
    be read) it returns the original path, an empty list of redacted types
    and status success. *)
Theorem no_redaction_short_circuit (e : env) (fs : filesystem) (ev : event) :
  (forall t, t ∈ pii_findings ev -> consent_results ev !! t = Some true) ->
  (redact_sensitive_data e fs ev).2 = fs /\
  forall path contents,
    readable_input fs ev path contents ->
    (redact_sensitive_data e fs ev).1 = nothing_to_redact path.
Proof.
  intros Hall. apply pii_to_redact_nil in Hall. split.
  - by apply all_consented_no_write.
  - intros path contents Hin.
    destruct (readable_input_run e fs ev path contents Hin) as [-> ->].
    by rewrite Hall.
Qed.

Lemma no_redaction_short_circuit_witness :
  (redact_sensitive_data RedactionSamples.local_env RedactionSamples.intake_fs
     (RedactionSamples.consented_event (Some "watched_dir/letter.txt"%string))).2
    = RedactionSamples.intake_fs /\
  (redact_sensitive_data RedactionSamples.local_env RedactionSamples.intake_fs
     (RedactionSamples.consented_event (Some "watched_dir/letter.txt"%string))).1
    = nothing_to_redact "watched_dir/letter.txt".
Proof.
  assert (Hall : forall t,
             t ∈ pii_findings (RedactionSamples.consented_event
                                 (Some "watched_dir/letter.txt"%string)) ->
             consent_results (RedactionSamples.consented_event
                                (Some "watched_dir/letter.txt"%string)) !! t = Some true).
  { intros t Hin. apply list_elem_of_singleton in Hin as ->. reflexivity. }
  destruct (no_redaction_short_circuit RedactionSamples.local_env
              RedactionSamples.intake_fs _ Hall) as [Hfs Hreply].
  split; [exact Hfs |].
  apply (Hreply _ RedactionSamples.letter).
  split; [reflexivity | split; [discriminate | vm_compute; reflexivity]].
Defined.

(** C5 as stated fails: every finding is consented to, yet the call does
    not return the path with status success when the file is not there (or
    when no path is given). *)
Lemma all_consented_but_not_validated :
  (forall t,
     t ∈ pii_findings (RedactionSamples.consented_event (Some "watched_dir/gone.txt"%string)) ->
     consent_results (RedactionSamples.consented_event (Some "watched_dir/gone.txt"%string)) !! t
       = Some true) /\
  (redact_sensitive_data RedactionSamples.local_env RedactionSamples.empty_fs
     (RedactionSamples.consented_event (Some "watched_dir/gone.txt"%string))).1
    = error_only "File not found and no contents provided" /\
  (redact_sensitive_data RedactionSamples.local_env RedactionSamples.intake_fs
     (RedactionSamples.consented_event None)).1
    = error_only "Missing required field: file_path" /\
  status (error_only "File not found and no contents provided") = None /\
  redacted_file_path (error_only "File not found and no contents provided") = None.
Proof.
  split.
  - intros t Hin. apply list_elem_of_singleton in Hin as ->. reflexivity.
  - repeat split; vm_compute; reflexivity.
Qed.

(** C6. When validation has passed, the redact set is not empty and the
    de-identification service fails, the pattern masker produces the text:
    types without a pattern take no part in it (with only such types the
    text is the input unchanged), and once the text is written the reply
    lists the whole redact set as [redacted_pii_types]. *)
Theorem fallback_reports_requested_types (e : env) (fs : filesystem) (ev : event)
    (path : string) (contents : pystr) :
  readable_input fs ev path contents ->
  pii_to_redact ev <> [] ->
  raises (dlp_redact e (pii_to_redact ev) contents) ->
  let masked := simple_redact_content (re_search e) contents (pii_to_redact ev) in
  masked = simple_redact_content (re_search e) contents
             (filter (fun t => is_Some (patterns !! t)) (pii_to_redact ev)) /\
  ((forall t, t ∈ pii_to_redact ev -> patterns !! t = None) -> masked = contents) /\
  forall fs',
    write_text fs (redacted_path_of path) masked = Ret fs' ->
    redact_sensitive_data e fs ev =
      (success_reply (redacted_path_of path) (pii_to_redact ev), fs') /\
    nodes fs' !! redacted_path_of path = Some (File masked).
Proof.
  intros Hin Hne Hdlp masked.
  assert (Hfilter := MaskerFacts.simple_redact_content_filter (re_search e) contents
                       (pii_to_redact ev)).
  split; [exact Hfilter |]. split.
  - intros Hnone. by apply MaskerFacts.simple_redact_content_no_patterns.
  - intros fs' Hw.
    destruct (readable_input_run e fs ev path contents Hin) as [-> ->].
    destruct (pii_to_redact ev) as [|t ts] eqn:Hset; [done |].
    destruct (dlp_redact e (t :: ts) contents) as [?|msg] eqn:Hd; [done |].
    cbv zeta. rewrite Hd. cbn [try_except]. fold masked. rewrite Hw. cbn. split; [done |].
    rewrite write_text_can_write in Hw. destruct (can_write fs _); [|done].
    injection Hw as <-. cbn. by rewrite lookup_insert_eq.
Qed.

Lemma fallback_reports_requested_types_witness :
  patterns !! "US_PASSPORT"%string = None /\
  simple_redact_content Regex.re_engine RedactionSamples.letter
    (pii_to_redact RedactionSamples.passport_event) = RedactionSamples.letter /\
  (redact_sensitive_data RedactionSamples.local_env RedactionSamples.intake_fs
     RedactionSamples.passport_event).1 =
    success_reply "watched_dir/letter_redacted.txt" ["US_PASSPORT"%string] /\
  nodes (redact_sensitive_data RedactionSamples.local_env RedactionSamples.intake_fs
           RedactionSamples.passport_event).2 !! "watched_dir/letter_redacted.txt"%string
    = Some (File RedactionSamples.letter).
Proof.
  split; [reflexivity |].
  assert (Hin : readable_input RedactionSamples.intake_fs RedactionSamples.passport_event
                  "watched_dir/letter.txt" RedactionSamples.letter).
  { split; [reflexivity | split; [discriminate | vm_compute; reflexivity]]. }
  assert (Hne : pii_to_redact RedactionSamples.passport_event <> []).
  { vm_compute. discriminate. }
  assert (Hdlp : raises (dlp_redact RedactionSamples.local_env
                           (pii_to_redact RedactionSamples.passport_event)
                           RedactionSamples.letter)).
  { exact I. }
  destruct (fallback_reports_requested_types RedactionSamples.local_env
              RedactionSamples.intake_fs RedactionSamples.passport_event
              "watched_dir/letter.txt" RedactionSamples.letter Hin Hne Hdlp)
    as (_ & Hsame & Hwrite).
  assert (Hmasked : simple_redact_content Regex.re_engine RedactionSamples.letter
                      (pii_to_redact RedactionSamples.passport_event)
                    = RedactionSamples.letter).
  { apply Hsame. intros t Ht. vm_compute in Ht.
    apply list_elem_of_singleton in Ht as ->. reflexivity. }
  split; [exact Hmasked |].
  edestruct Hwrite as [Hrun Hfile].
  { change (re_search RedactionSamples.local_env) with Regex.re_engine.
    rewrite Hmasked. vm_compute. reflexivity. }
  rewrite Hrun. cbn [fst snd]. split.
  - vm_compute. reflexivity.
  - change (re_search RedactionSamples.local_env) with Regex.re_engine in Hfile.
    rewrite Hmasked in Hfile. exact Hfile.
Defined.

(** The scenario of user u1: consent for the e-mail address only, a file
    with an e-mail address and a phone number. The phone number is the one
    type reported and the one text masked. *)
Example u1_phone_masked_email_kept :
  redact_sensitive_data RedactionSamples.local_env RedactionSamples.intake_fs
      RedactionSamples.u1_event
    = (success_reply "watched_dir/letter_redacted.txt" ["PHONE_NUMBER"%string],
       {| nodes :=
            <[ "watched_dir/letter_redacted.txt"%string :=
                 File (of_ascii "Contact John Smith at john.smith@example.com or "
                       ++ mask_token ++ of_ascii ", SSN 123-45-6789.") ]>
              (nodes RedactionSamples.intake_fs);
          unwritable := ∅ |}).
Proof. vm_compute. reflexivity. Qed.

(** Closes the leaves of the case analysis on a reply that is known. *)
Ltac error_cases :=
  repeat split; try done;
  intuition (try discriminate; try congruence; eauto).

(** The reply of the call, case by case: the two validation records, a
    caught failure of the read, the short circuit, a caught failure of the
    write, and the success record. *)
Lemma redact_reply_cases (e : env) (fs : filesystem) (ev : event) :
  let r := (redact_sensitive_data e fs ev).1 in
  let path := default ""%string (file_path ev) in
  (truthy (file_path ev) = false /\ validated fs ev = false /\
   r = error_only "Missing required field: file_path") \/
  (truthy (file_path ev) = true /\ validated fs ev = false /\
   r = error_only "File not found and no contents provided") \/
  (validated fs ev = true /\
   exists msg, contents_of fs ev path = Raise msg /\ r = error_status msg) \/
  (validated fs ev = true /\
   exists contents, contents_of fs ev path = Ret contents /\
     pii_to_redact ev = [] /\ r = nothing_to_redact path) \/
  (validated fs ev = true /\
   exists contents msg, contents_of fs ev path = Ret contents /\
     pii_to_redact ev <> [] /\
     write_text fs (redacted_path_of path)
       (redacted_text e contents (pii_to_redact ev)) = Raise msg /\
     r = error_status msg) \/
  (validated fs ev = true /\
   exists contents fs', contents_of fs ev path = Ret contents /\
     pii_to_redact ev <> [] /\
     write_text fs (redacted_path_of path)
       (redacted_text e contents (pii_to_redact ev)) = Ret fs' /\
     r = success_reply (redacted_path_of path) (pii_to_redact ev)).
Proof.
  intros r path. subst r. unfold redact_sensitive_data, validated. fold path.
  destruct (truthy (file_path ev)) eqn:Hp; cbn [negb andb].
  2:{ left. done. }
  destruct (truthy_text (file_contents ev) || exists_path fs path) eqn:Hv.
  2:{ apply orb_false_iff in Hv as [-> ->]. right. left. done. }
  assert (negb (truthy_text (file_contents ev)) && negb (exists_path fs path) = false) as ->.
  { destruct (truthy_text _), (exists_path _ _); done. }
  unfold redact_body.
  destruct (contents_of fs ev path) as [contents|msg] eqn:Hc; cbn.
  2:{ do 2 right. left. eauto. }
  destruct (pii_to_redact ev) as [|t ts] eqn:Hset; cbn.
  { do 3 right. left. eauto. }
  destruct (write_text fs (redacted_path_of path) _) as [fs'|msg] eqn:Hw; cbn.
  - do 5 right. split; [done |]. by exists contents, fs'.
  - do 4 right. left. split; [done |]. by exists contents, msg.
Qed.

(** C7 (amended). The reply carries an error field in four cases. When no
    path is given, or no contents are supplied and the file does not exist,
    it is the validation record: the error field alone, without a status.
    When an exception is caught (reading the file raises, or the redact set
    is not empty and writing the redacted file raises) it carries status
    error together with the error field. In every other case the status is
    success and there is no error field. The status is never anything but
    absent, error or success. *)
Theorem redaction_error_cases (e : env) (fs : filesystem) (ev : event) :
  let r := (redact_sensitive_data e fs ev).1 in
  let path := default ""%string (file_path ev) in
  let caught :=
    raises (contents_of fs ev path) \/
    (exists contents,
       contents_of fs ev path = Ret contents /\ pii_to_redact ev <> [] /\
       raises (write_text fs (redacted_path_of path)
                 (redacted_text e contents (pii_to_redact ev)))) in
  (truthy (file_path ev) = false ->
     r = error_only "Missing required field: file_path") /\
  (truthy (file_path ev) = true -> validated fs ev = false ->
     r = error_only "File not found and no contents provided") /\
  (validated fs ev = true -> caught -> exists msg, r = error_status msg) /\
  (validated fs ev = true -> ~ caught ->
     status r = Some "success"%string /\ error r = None /\
     is_Some (redacted_file_path r) /\ is_Some (redacted_pii_types r)) /\
  (status r = None \/ status r = Some "error"%string \/
   status r = Some "success"%string) /\
  (status r = None <-> validated fs ev = false) /\
  (status r = Some "error"%string <-> validated fs ev = true /\ caught) /\
  (status r = Some "success"%string <-> validated fs ev = true /\ ~ caught) /\
  (is_Some (error r) <-> validated fs ev = false \/ caught) /\
  (error r = None <-> status r = Some "success"%string).
Proof.
  intros r path caught.
  assert (forall contents, contents_of fs ev path = Ret contents ->
            pii_to_redact ev = [] -> ~ caught) as Hshort.
  { intros contents Hc Hnil [Hr | (c & _ & Hne & _)]; [by rewrite Hc in Hr | done]. }
  assert (forall contents fs', contents_of fs ev path = Ret contents ->
            write_text fs (redacted_path_of path)
              (redacted_text e contents (pii_to_redact ev)) = Ret fs' ->
            ~ caught) as Hwritten.
  { intros contents fs' Hc Hw [Hr | (c & Hc' & _ & Hr)]; [by rewrite Hc in Hr |].
    rewrite Hc in Hc'. injection Hc' as <-. by rewrite Hw in Hr. }
  assert (forall msg, contents_of fs ev path = Raise msg -> caught) as Hread.
  { intros msg Hc. left. by rewrite Hc. }
  assert (forall contents msg, contents_of fs ev path = Ret contents ->
            pii_to_redact ev <> [] ->
            write_text fs (redacted_path_of path)
              (redacted_text e contents (pii_to_redact ev)) = Raise msg ->
            caught) as Hwrite.
  { intros contents msg Hc Hne Hw. right. exists contents.
    split; [done |]. split; [done |]. by rewrite Hw. }
  clearbody caught.
  destruct (redact_reply_cases e fs ev)
    as [(Hp & Hv & Hr) | [(Hp & Hv & Hr) | [(Hv & msg & Hc & Hr)
       | [(Hv & contents & Hc & Hnil & Hr)
       | [(Hv & contents & msg & Hc & Hne & Hw & Hr)
       | (Hv & contents & fs' & Hc & Hne & Hw & Hr)]]]]];
    subst r; rewrite Hr; clear Hr.
  all: try (assert (truthy (file_path ev) = true) as Hp
              by (unfold validated in Hv; by apply andb_true_iff in Hv as [? _])).
  all: try (assert caught as Hcaught
              by first [eapply Hread; exact Hc | eapply Hwrite; [exact Hc | exact Hne | exact Hw]]).
  all: try (assert (~ caught) as Hnot
              by first [eapply Hshort; [exact Hc | exact Hnil] | eapply Hwritten; [exact Hc | exact Hw]]).
  all: clear Hshort Hwritten Hread Hwrite.
  all: repeat apply conj; cbn; error_cases.
Qed.

(** C7 as stated fails in both directions: without a path the reply has no
    status field at all, and a failed write of the redacted file gives
    status error although a path was given and the file was read. *)
Lemma redaction_error_status_mismatch :
  status (redact_sensitive_data RedactionSamples.local_env RedactionSamples.intake_fs
            (RedactionSamples.ssn_event None)).1 = None /\
  error (redact_sensitive_data RedactionSamples.local_env RedactionSamples.intake_fs
           (RedactionSamples.ssn_event None)).1
    = Some "Missing required field: file_path"%string /\
  status (redact_sensitive_data RedactionSamples.local_env RedactionSamples.empty_fs
            (RedactionSamples.ssn_event (Some "watched_dir/letter.txt"%string))).1 = None /\
  read_text RedactionSamples.readonly_fs "watched_dir/letter.txt"
    = Ret RedactionSamples.letter /\
  (redact_sensitive_data RedactionSamples.local_env RedactionSamples.readonly_fs
     (RedactionSamples.ssn_event (Some "watched_dir/letter.txt"%string))).1
    = error_status "OSError".
Proof. repeat split; vm_compute; reflexivity. Qed.

End RedactionFacts.

(** ** Audit stage *)

Module AuditFacts.
Import Py Audit.

(** A configured project whose client can be created selects the
    analytical sink. *)
Lemma AuditLogger_init_configured e project :
  GOOGLE_CLOUD_PROJECT e = Some project -> project <> ""%string ->
  bigquery_Client e project = Ret tt ->
  AuditLogger_init e = {| bigquery_client := Some tt; use_bigquery := true |}.
Proof.
  intros Hp Hne Hc. unfold AuditLogger_init. rewrite Hp. simpl.
  rewrite bool_decide_eq_false_2 by done. simpl. by rewrite Hc.
Qed.

(** Without the analytical sink the entry goes to the local log, and the
    flag says whether the append succeeded. *)
Lemma local_log_append self e st event_data :
  use_bigquery self = false ->
  log_audit_event self e st event_data =
    if audit_log_locked st then (false, st)
    else (true, set_audit_log st (default [] (audit_log st)
                                    ++ [Parsed (JObject (with_timestamp e event_data))])).
Proof.
  intros Hu. unfold log_audit_event, _log_to_local_file, append_line.
  rewrite Hu. simpl. by destruct (audit_log_locked st).
Qed.

(** C2 (behaviour of the code where the claim fails). With the analytical
    sink selected, an insert that raises or reports errors makes
    [log_audit_event] return [False] and leaves the local log as it was:
    nothing is appended to it. *)
Theorem primary_failure_skips_local_log (self : AuditLogger) (e : env) (st : storage)
    (event_data : audit_entry) :
  use_bigquery self = true ->
  is_Some (bigquery_client self) ->
  ((exists msg, insert_rows_json e (with_timestamp e event_data) = Raise msg) \/
   (exists errors, insert_rows_json e (with_timestamp e event_data) = Ret errors /\
                   errors <> [])) ->
  log_audit_event self e st event_data = (false, st).
Proof.
  intros Hu Hc Hfail. unfold log_audit_event, _log_to_bigquery.
  rewrite Hu, bool_decide_eq_true_2 by done. simpl.
  destruct Hfail as [[msg ->] | (errors & -> & Hne)]; simpl; [done |].
  by rewrite bool_decide_eq_false_2.
Qed.

Lemma primary_failure_skips_local_log_witness :
  AuditLogger_init AuditSamples.failing_sink_env
    = {| bigquery_client := Some tt; use_bigquery := true |} /\
  log_audit_event (AuditLogger_init AuditSamples.failing_sink_env)
      AuditSamples.failing_sink_env AuditSamples.fresh_storage
      (make_audit_entry AuditSamples.failing_sink_env AuditSamples.finished_run)
    = (false, AuditSamples.fresh_storage) /\
  audit_log AuditSamples.fresh_storage = None.
Proof.
  split; [reflexivity |]. split; [|reflexivity].
  apply primary_failure_skips_local_log.
  - reflexivity.
  - eexists. reflexivity.
  - right. eexists. split; [reflexivity | discriminate].
Defined.

(** An absent log gives no entries. *)
Lemma selected_entries_absent st rq :
  audit_log st = None -> selected_entries st rq = Ret [].
Proof.
  intros H. unfold selected_entries, read_audit_log. rewrite H. simpl.
  unfold filter_by_user. by destruct (truthy _).
Qed.

(** A readable log whose lines are all malformed (an empty file among
    them) gives no entries. *)
Lemma selected_entries_no_parsed st rq lines :
  audit_log st = Some lines -> audit_log_locked st = false ->
  Forall (fun l => l = Malformed) lines ->
  selected_entries st rq = Ret [].
Proof.
  intros Hl Hk Hall. unfold selected_entries, read_audit_log. rewrite Hl, Hk.
  clear Hl. replace (omap _ lines) with (@nil json).
  - simpl. unfold filter_by_user. by destruct (truthy _).
  - induction Hall as [|l ls -> _ IH]; [done | exact IH].
Qed.

(** A user filter that no entry passes gives no entries. *)
Lemma selected_entries_filtered_out st rq vs entries user :
  read_audit_log st = Ret vs -> as_objects vs = Ret entries ->
  rq_user_id rq = Some user -> user <> ""%string ->
  Forall (fun entry => user_id entry <> Some user) entries ->
  selected_entries st rq = Ret [].
Proof.
  intros Hr Ho Hu Hne Hall. unfold selected_entries. rewrite Hr. simpl.
  rewrite Ho. simpl. unfold filter_by_user. rewrite Hu. simpl.
  rewrite bool_decide_eq_false_2 by done. simpl. f_equal. clear Ho.
  induction Hall as [|entry es Hx _ IH]; [done |].
  by rewrite filter_cons_False.
Qed.

Lemma rate_no_entries compliant : rate compliant 0 = PyInt 0.
Proof. reflexivity. Qed.

(** C9. When the entries selected for the report are none, the rate is
    computed without a division: the report built has [compliance_rate]
    equal to the integer 0 (and zero files processed), and
    [generate_compliance_report] returns that report once its snapshot is
    saved; the only failure left is the snapshot file refusing to open,
    reported as that I/O error. *)
Theorem report_without_entries_has_rate_zero (e : env) (st : storage) (rq : report_request) :
  selected_entries st rq = Ret [] ->
  let report := build_report e rq [] in
  compliance_rate (report_summary report) = PyInt 0 /\
  total_files_processed (report_summary report) = 0%nat /\
  (report_file_locked st = false ->
     generate_compliance_report e st rq =
       ({| report_generated := true;
           report_file := Some COMPLIANCE_REPORT_FILE;
           generated_report := Some report;
           report_error := None |}, set_report st report)) /\
  (report_file_locked st = true ->
     generate_compliance_report e st rq =
       ({| report_generated := false; report_file := None;
           generated_report := None; report_error := Some "OSError"%string |}, st)).
Proof.
  intros Hsel report. split; [reflexivity |]. split; [reflexivity |].
  unfold generate_compliance_report, save_report. rewrite Hsel. simpl.
  split; intros ->; reflexivity.
Qed.

Lemma report_without_entries_has_rate_zero_witness :
  selected_entries AuditSamples.one_run_storage
    (AuditSamples.report_for (Some "nobody"%string)) = Ret [] /\
  (exists report,
     (generate_compliance_report AuditSamples.local_only_env AuditSamples.one_run_storage
        (AuditSamples.report_for (Some "nobody"%string))).1
       = {| report_generated := true;
            report_file := Some COMPLIANCE_REPORT_FILE;
            generated_report := Some report;
            report_error := None |} /\
     compliance_rate (report_summary report) = PyInt 0) /\
  (generate_compliance_report AuditSamples.local_only_env AuditSamples.fresh_storage
     (AuditSamples.report_for None)).1
    = {| report_generated := true;
         report_file := Some COMPLIANCE_REPORT_FILE;
         generated_report :=
           Some (build_report AuditSamples.local_only_env (AuditSamples.report_for None) []);
         report_error := None |}.
Proof.
  assert (H1 : selected_entries AuditSamples.one_run_storage
                 (AuditSamples.report_for (Some "nobody"%string)) = Ret []).
  { vm_compute. reflexivity. }
  assert (H2 : selected_entries AuditSamples.fresh_storage
                 (AuditSamples.report_for None) = Ret []).
  { apply selected_entries_absent. reflexivity. }
  split; [exact H1 |]. split.
  - destruct (report_without_entries_has_rate_zero AuditSamples.local_only_env _ _ H1)
      as (Hrate & _ & Hok & _).
    eexists. split; [| exact Hrate]. rewrite (Hok eq_refl). reflexivity.
  - destruct (report_without_entries_has_rate_zero AuditSamples.local_only_env _ _ H2)
      as (_ & _ & Hok & _).
    rewrite (Hok eq_refl). reflexivity.
Defined.

End AuditFacts.

(** ** Ingestion stage *)

Module WatchdogFacts.
Import Py Fs Watchdog.

Lemma monitor_pending st dir now event :
  dir <> NoDirectory -> latest_event st = Some event ->
  monitor_watched_directory st dir now =
    Ret (payload (fe_file_path event) "user123" (fe_timestamp event),
         {| latest_event := None; observer := observer st |}).
Proof.
  intros Hdir Hev. unfold monitor_watched_directory. rewrite Hev.
  by destruct dir.
Qed.

Lemma monitor_scan st now f rest :
  latest_event st = None ->
  monitor_watched_directory st (Listing (f :: rest)) now =
    Ret (payload (in_watched_dir (max_by_ctime f rest).1) "user123" now, st).
Proof. intros Hev. unfold monitor_watched_directory. by rewrite Hev. Qed.

(** Whatever comes back from the passive watch is a payload for user123 or
    no payload at all. *)
Lemma monitor_reply_shape st dir now r st' :
  monitor_watched_directory st dir now = Ret (r, st') ->
  (exists path time, r = payload path "user123" time) \/ event_type r = None.
Proof.
  unfold monitor_watched_directory.
  destruct dir as [| |files]; [intros [= <- <-]; by right | |].
  - destruct (latest_event st); [|done]. intros [= <- <-]. left. eauto.
  - destruct (latest_event st); [intros [= <- <-]; left; eauto |].
    destruct files; intros [= <- <-]; [by right | left; eauto].
Qed.

(** C10. The passive watch returns an event payload from two sources, the
    pending-event slot and the scan of the directory, and in both the
    payload's [user_id] is the fixed string "user123", next to the event
    type, the file's path and the timestamp. No other reply of the watch
    carries any of these fields. So a consent request that takes its user
    id from such a payload is evaluated as a request of user123, whatever
    file was ingested. *)
Theorem watch_payload_user (st : state) (dir : directory) (now : string) :
  (forall event,
     dir <> NoDirectory -> latest_event st = Some event ->
     exists r st',
       monitor_watched_directory st dir now = Ret (r, st') /\
       event_type r = Some "new_file_ingested"%string /\
       file_path r = Some (fe_file_path event) /\
       timestamp r = Some (fe_timestamp event) /\
       user_id r = Some "user123"%string) /\
  (forall f rest,
     dir = Listing (f :: rest) -> latest_event st = None ->
     exists r st',
       monitor_watched_directory st dir now = Ret (r, st') /\
       event_type r = Some "new_file_ingested"%string /\
       file_path r = Some (in_watched_dir (max_by_ctime f rest).1) /\
       timestamp r = Some now /\
       user_id r = Some "user123"%string) /\
  (forall r st',
     monitor_watched_directory st dir now = Ret (r, st') ->
     is_Some (event_type r) \/ is_Some (file_path r) \/ is_Some (user_id r) ->
     event_type r = Some "new_file_ingested"%string /\
     user_id r = Some "user123"%string /\
     forall e ev,
       Consent.user_id ev = user_id r ->
       Consent.verify_consent_for_pii_types e ev =
       Consent.verify_consent_for_pii_types e
         {| Consent.user_id := Some "user123"%string;
            Consent.pii_findings := Consent.pii_findings ev |}).
Proof.
  split; [|split].
  - intros event Hdir Hev. rewrite (monitor_pending st dir now event Hdir Hev).
    eexists _, _. split; [reflexivity |]. cbn. done.
  - intros f rest -> Hev. rewrite (monitor_scan st now f rest Hev).
    eexists _, _. split; [reflexivity |]. cbn. done.
  - intros r st' Hrun Hfields.
    destruct (monitor_reply_shape _ _ _ _ _ Hrun) as [(path & time & ->) | Hnone].
    + split; [reflexivity |]. split; [reflexivity |].
      intros e [u ts] Hu. cbn in Hu. by rewrite Hu.
    + exfalso. revert Hrun Hfields Hnone. unfold monitor_watched_directory.
      destruct dir as [| |files].
      * intros [= <- <-]. cbn. by intros [[? ?]|[[? ?]|[? ?]]].
      * destruct (latest_event st); [|done]. by intros [= <- <-].
      * destruct (latest_event st); [by intros [= <- <-] |].
        destruct files; intros [= <- <-]; [|done].
        cbn. by intros [[? ?]|[[? ?]|[? ?]]].
Qed.

Lemma watch_payload_user_witness :
  (exists r st',
     monitor_watched_directory IngestionSamples.pending IngestionSamples.two_files
       "2025-01-01T09:00:05" = Ret (r, st') /\
     event_type r = Some "new_file_ingested"%string /\
     file_path r = Some "watched_dir/alice_taxes.txt"%string /\
     timestamp r = Some "2025-01-01T09:00:00"%string /\
     user_id r = Some "user123"%string) /\
  (exists r st',
     monitor_watched_directory IngestionSamples.idle IngestionSamples.two_files
       "2025-01-01T09:00:05" = Ret (r, st') /\
     event_type r = Some "new_file_ingested"%string /\
     file_path r = Some "watched_dir/alice_taxes.txt"%string /\
     timestamp r = Some "2025-01-01T09:00:05"%string /\
     user_id r = Some "user123"%string).
Proof.
  split.
  - apply (proj1 (watch_payload_user IngestionSamples.pending IngestionSamples.two_files
                    "2025-01-01T09:00:05")
             {| fe_event_type := "file_created";
                fe_file_path := "watched_dir/alice_taxes.txt";
                fe_timestamp := "2025-01-01T09:00:00" |});
      [discriminate | reflexivity].
  - apply (proj1 (proj2 (watch_payload_user IngestionSamples.idle
                           IngestionSamples.two_files "2025-01-01T09:00:05"))
             ("old.txt"%string, 10) [("alice_taxes.txt"%string, 20)]);
      reflexivity.
Defined.

(** The file of another user, announced by the watcher or found by the
    scan, is ingested for user123. *)
Example watch_ingests_for_user123 :
  monitor_watched_directory IngestionSamples.pending IngestionSamples.two_files
      "2025-01-01T09:00:05"
    = Ret (payload "watched_dir/alice_taxes.txt" "user123" "2025-01-01T09:00:00",
           IngestionSamples.idle) /\
  monitor_watched_directory IngestionSamples.idle IngestionSamples.two_files
      "2025-01-01T09:00:05"
    = Ret (payload "watched_dir/alice_taxes.txt" "user123" "2025-01-01T09:00:05",
           IngestionSamples.idle).
Proof. split; reflexivity. Qed.

End WatchdogFacts.

(** ** Stage boundaries *)

Module BoundaryFacts.
Import Py Fs.

Lemma read_text_absent fs p : nodes fs !! p = None -> read_text fs p = Raise "FileNotFoundError".
Proof. intros H. unfold read_text. by rewrite H. Qed.

Lemma upload_file_absent fs now source user :
  nodes fs !! source = None ->
  Watchdog.upload_file fs now source user = Raise "FileNotFoundError".
Proof.
  intros H. unfold Watchdog.upload_file, Watchdog.copy2, exists_path.
  rewrite bool_decide_eq_false_2 with (P := is_Some _)
    by (rewrite H; by intros [? ?]).
  rewrite andb_false_r. by rewrite read_text_absent.
Qed.

Lemma detect_data_absent analyze fs path :
  nodes fs !! path = None ->
  Detection.detect_data analyze fs (Some path) = Raise "FileNotFoundError".
Proof. intros H. unfold Detection.detect_data. by rewrite read_text_absent. Qed.

(** C4 (amended). The consent checks, the redaction and the three audit
    operations catch what is raised inside them: whatever the input and the
    environment, each returns a record that carries an error field or its
    success fields. The upload and the detection have no handler: given a
    path that names no file, each raises [FileNotFoundError] to its
    caller. *)
Theorem stage_results_or_raise :
  (forall e ev,
     let r := Consent.verify_consent_for_pii_types e ev in
     (is_Some (Consent.error r) /\ Consent.consent_results r = None) \/
     (Consent.error r = None /\ is_Some (Consent.consent_results r) /\
      Consent.status r = Some "verified"%string)) /\
  (forall e ev,
     let r := Consent.verify_consent e ev in
     (is_Some (Consent.sr_error r) /\ Consent.has_consent r = None) \/
     (Consent.sr_error r = None /\ is_Some (Consent.has_consent r))) /\
  (forall e fs ev,
     let r := (Redaction.redact_sensitive_data e fs ev).1 in
     is_Some (Redaction.error r) \/
     (Redaction.error r = None /\ Redaction.status r = Some "success"%string /\
      is_Some (Redaction.redacted_file_path r) /\
      is_Some (Redaction.redacted_pii_types r))) /\
  (forall self e st ev,
     let r := (Audit.log_file_processing_event self e st ev).1 in
     Audit.log_error r = None /\ is_Some (Audit.audit_entry_logged r) /\
     is_Some (Audit.log_message r)) /\
  (forall e st rq,
     let r := (Audit.generate_compliance_report e st rq).1 in
     (Audit.report_generated r = true /\ is_Some (Audit.generated_report r) /\
      Audit.report_error r = None) \/
     (Audit.report_generated r = false /\ is_Some (Audit.report_error r))) /\
  (forall st requested,
     let r := (Audit.export_audit_to_csv st requested).1 in
     (Audit.exported r = true /\ is_Some (Audit.entries_exported r) /\
      Audit.export_error r = None) \/
     (Audit.exported r = false /\ is_Some (Audit.export_error r))) /\
  (forall fs now source user,
     nodes fs !! source = None ->
     Watchdog.upload_file fs now source user = Raise "FileNotFoundError") /\
  (forall analyze fs path,
     nodes fs !! path = None ->
     Detection.detect_data analyze fs (Some path) = Raise "FileNotFoundError").
Proof.
  repeat apply conj.
  - intros e ev. cbv zeta. unfold Consent.verify_consent_for_pii_types.
    destruct (_ || _); cbn; [left | right]; eauto.
  - intros e ev. cbv zeta. unfold Consent.verify_consent.
    destruct (_ || _); cbn; [left; eauto |]. right.
    destruct (Consent.firestore _ _ _) as [msg| |d]; cbn; eauto.
    destruct (Consent.primary_consent _ _ _); cbn; eauto.
  - intros e fs ev.
    destruct (RedactionFacts.redact_reply_cases e fs ev)
      as [(_ & _ & Hr) | [(_ & _ & Hr) | [(_ & msg & _ & Hr)
         | [(_ & contents & _ & _ & Hr) | [(_ & contents & msg & _ & _ & _ & Hr)
         | (_ & contents & fs' & _ & _ & _ & Hr)]]]]];
      cbv zeta in *; rewrite Hr; cbn; eauto 6.
  - intros self e st ev. cbv zeta. unfold Audit.log_file_processing_event.
    destruct (Audit.log_audit_event _ _ _ _) as [ok st']. cbn. eauto.
  - intros e st rq. cbv zeta. unfold Audit.generate_compliance_report.
    destruct (Audit.selected_entries st rq) as [entries|msg]; cbn; [|right; eauto].
    destruct (Audit.save_report _ _); cbn; [left | right]; eauto.
  - intros st requested. cbv zeta. unfold Audit.export_audit_to_csv.
    destruct (Audit.audit_log st); cbn; [|right; eauto].
    destruct (Audit.read_audit_log st) as [[|v vs]|msg]; cbn; try solve [right; eauto].
    destruct (bool_decide _); cbn; [right; eauto |].
    destruct v as [entry|]; cbn; [|right; eauto].
    destruct (Audit.flatten_rows vs) as [rows [msg|]]; cbn; [right | left]; eauto.
  - intros fs now source user. apply upload_file_absent.
  - intros analyze fs path. apply detect_data_absent.
Qed.

(** C4 as stated fails: a source path and a file path that name no file
    make the upload and the detection raise. *)
Lemma upload_and_detection_raise :
  Watchdog.upload_file IngestionSamples.no_files "2025-01-01T09:00:00"
      "inbox/missing.txt" "user123"
    = Raise "FileNotFoundError" /\
  Detection.detect_data IngestionSamples.no_analysis IngestionSamples.no_files
      (Some "watched_dir/missing.txt"%string)
    = Raise "FileNotFoundError".
Proof. split; reflexivity. Qed.

End BoundaryFacts.

(** * Further properties of the stages *)

(** ** Consent check: what the reply holds *)

Module ConsentLaws.
Import Py Consent ConsentReference.

Lemma primary_usable_cons now d t ts :
  primary_usable now d (t :: ts) = true ->
  (exists b, primary_consent now d t = Ret b) /\ primary_usable now d ts = true.
Proof.
  unfold primary_usable. simpl. intros [Ht Hts]%andb_true_iff. split; [|done].
  destruct (primary_consent now d t); [eauto | done].
Qed.

(** A usable document lets the loop run to its end, storing the document's
    answer under every requested type and nothing else. *)
Lemma primary_loop_usable now d ts acc :
  primary_usable now d ts = true ->
  exists acc',
    primary_loop now d ts acc = (acc', None) /\
    forall t, acc' !! t =
      if decide (t ∈ ts)
      then Some (match primary_consent now d t with Ret b => b | Raise _ => false end)
      else acc !! t.
Proof.
  revert acc. induction ts as [|t0 ts IH]; intros acc Hok.
  - exists acc. split; [done |]. intros t. rewrite decide_False; [done | apply not_elem_of_nil].
  - apply primary_usable_cons in Hok as [[b Hb] Hts]. simpl. rewrite Hb.
    destruct (IH (<[t0:=b]> acc) Hts) as (acc' & Hrun & Hlook).
    exists acc'. split; [done |]. intros t. rewrite Hlook.
    destruct (decide (t ∈ ts)) as [Hin|Hin].
    + rewrite decide_True; [done | by right].
    + destruct (decide (t = t0)) as [->|Hne].
      * rewrite decide_True by (by left). by rewrite lookup_insert_eq, Hb.
      * rewrite decide_False by (intros [?|?]%elem_of_cons; contradiction).
        by rewrite lookup_insert_ne.
Qed.

(** A document that is not usable stops the loop with an exception; what
    it stored by then sits under requested types only. *)
Lemma primary_loop_unusable now d ts acc :
  primary_usable now d ts = false ->
  exists acc' err,
    primary_loop now d ts acc = (acc', Some err) /\
    forall t, is_Some (acc' !! t) -> is_Some (acc !! t) \/ t ∈ ts.
Proof.
  revert acc. induction ts as [|t0 ts IH]; intros acc Hbad; [done |].
  unfold primary_usable in Hbad. simpl in Hbad. simpl.
  destruct (primary_consent now d t0) as [b|err] eqn:Hb.
  - simpl in Hbad. destruct (IH (<[t0:=b]> acc) Hbad) as (acc' & err & Hrun & Hdom).
    exists acc', err. split; [done |]. intros t Ht.
    destruct (Hdom t Ht) as [Hacc|Hin]; [|right; by right].
    destruct (decide (t = t0)) as [->|Hne]; [right; by left |].
    left. by rewrite lookup_insert_ne in Hacc.
  - exists acc, err. split; [done |]. intros t Ht. by left.
Qed.

(** The entries of the reply of a valid request, type by type. *)
Lemma requested_types_resolved (e : env) (ev : event) (u : string) (ts : list string) :
  user_id ev = Some u -> u <> ""%string ->
  pii_findings ev = Some ts -> ts <> [] ->
  exists results,
    consent_results (verify_consent_for_pii_types e ev) = Some results /\
    forall t, results !! t =
      if decide (t ∈ ts) then Some (resolved e u ts t) else None.
Proof.
  intros Hu Hne Hts Hnil.
  unfold verify_consent_for_pii_types. rewrite Hu, Hts. simpl.
  rewrite !bool_decide_eq_false_2 by done. simpl.
  eexists. split; [reflexivity |]. intros t. unfold resolved.
  destruct (firestore e (collection e) u) as [msg| |d] eqn:Hstore.
  - by rewrite ConsentFacts.fallback_loop_lookup, lookup_empty.
  - by rewrite ConsentFacts.fallback_loop_lookup, lookup_empty.
  - destruct (primary_usable (utcnow e) d ts) eqn:Hok.
    + destruct (primary_loop_usable _ _ _ ∅ Hok) as (acc' & -> & Hlook).
      by rewrite Hlook, lookup_empty.
    + destruct (primary_loop_unusable _ _ _ ∅ Hok) as (acc' & err & -> & Hdom).
      rewrite ConsentFacts.fallback_loop_lookup.
      destruct (decide (t ∈ ts)) as [Hin|Hin]; [done |].
      destruct (acc' !! t) eqn:Ht; [|done].
      destruct (Hdom t) as [Hacc|Hbad]; [eauto | | contradiction].
      rewrite lookup_empty in Hacc. by destruct Hacc.
Qed.

(** X1. For a valid request the reply's [consent_results] has an entry for
    each requested type and for nothing else, and the entry of a type is
    the primary store's answer when the whole request can be answered from
    the user's document, the local table's [granted] flag otherwise. *)
Theorem consent_results_pointwise (e : env) (ev : event) (u : string) (ts : list string) :
  user_id ev = Some u -> u <> ""%string ->
  pii_findings ev = Some ts -> ts <> [] ->
  exists results,
    consent_results (verify_consent_for_pii_types e ev) = Some results /\
    forall t, results !! t =
      if decide (t ∈ ts) then Some (resolved e u ts t) else None.
Proof. exact (requested_types_resolved e ev u ts). Qed.

Lemma consent_results_pointwise_witness :
  exists results,
    consent_results (verify_consent_for_pii_types online_env
                       (request "u3" ["EMAIL_ADDRESS"; "PHONE_NUMBER"]%string))
      = Some results /\
    forall t, results !! t =
      if decide (t ∈ ["EMAIL_ADDRESS"; "PHONE_NUMBER"]%string)
      then Some (resolved online_env "u3"
                   ["EMAIL_ADDRESS"; "PHONE_NUMBER"]%string t)
      else None.
Proof.
  apply (consent_results_pointwise online_env _ "u3"%string
           ["EMAIL_ADDRESS"; "PHONE_NUMBER"]%string);
    [reflexivity | discriminate | reflexivity | discriminate].
Defined.

Lemma primary_usable_forall now d ts :
  primary_usable now d ts = true <->
  forall t, t ∈ ts -> exists b, primary_consent now d t = Ret b.
Proof.
  induction ts as [|t0 ts IH].
  - split; [intros _ t Hin; by apply elem_of_nil in Hin | done].
  - split.
    + intros [Hb Hts]%primary_usable_cons t [->|Hin]%elem_of_cons; [done |].
      by apply IH.
    + intros Hall. unfold primary_usable. simpl. apply andb_true_iff. split.
      * destruct (Hall t0) as [b ->]; [by left | done].
      * apply IH. intros t Hin. apply Hall. by right.
Qed.

Lemma primary_usable_same_elements now d ts1 ts2 :
  (forall t, t ∈ ts1 <-> t ∈ ts2) ->
  primary_usable now d ts1 = primary_usable now d ts2.
Proof.
  intros Hsame. apply eq_true_iff_eq. rewrite !primary_usable_forall.
  split; intros H t Hin; apply H; by apply Hsame.
Qed.

(** X2. The reply depends on which types are requested, not on their order
    or on repetitions: two non-empty requests of one user with the same
    types get the same [consent_results]. *)
Theorem consent_results_order_irrelevant (e : env) (u : string) (ts1 ts2 : list string) :
  u <> ""%string -> ts1 <> [] -> ts2 <> [] ->
  (forall t, t ∈ ts1 <-> t ∈ ts2) ->
  consent_results (verify_consent_for_pii_types e (request u ts1)) =
  consent_results (verify_consent_for_pii_types e (request u ts2)).
Proof.
  intros Hu H1 H2 Hsame.
  destruct (requested_types_resolved e (request u ts1) u ts1)
    as (r1 & -> & Hr1); [done..|].
  destruct (requested_types_resolved e (request u ts2) u ts2)
    as (r2 & -> & Hr2); [done..|].
  f_equal. apply map_eq. intros t. rewrite Hr1, Hr2.
  destruct (decide (t ∈ ts1)) as [Hin|Hin].
  - rewrite decide_True by (by apply Hsame). f_equal. unfold resolved.
    destruct (firestore e (collection e) u) as [msg| |d]; [done..|].
    by rewrite (primary_usable_same_elements _ _ ts1 ts2).
  - rewrite decide_False; [done |]. intros Hin2. by apply Hin, Hsame.
Qed.

Lemma consent_results_order_irrelevant_witness :
  consent_results (verify_consent_for_pii_types online_env
      (request "u3" ["EMAIL_ADDRESS"; "PHONE_NUMBER"]%string)) =
  consent_results (verify_consent_for_pii_types online_env
      (request "u3" ["PHONE_NUMBER"; "EMAIL_ADDRESS"; "PHONE_NUMBER"]%string)).
Proof.
  apply consent_results_order_irrelevant; [discriminate.. |].
  intros t. rewrite !elem_of_cons, !elem_of_nil. tauto.
Defined.

(** X3. On the primary path the expiry is honoured: when the user's
    document answers the whole request, a type whose entry carries a
    [valid_until] datetime is consented to exactly when [granted] is true
    and the clock has not passed that datetime. *)
Theorem primary_expiry_honoured (e : env) (ev : event) (u t : string) (ts : list string)
    (d : gmap string doc_value) (c : consent_record) (vu : Z) :
  user_id ev = Some u -> u <> ""%string ->
  pii_findings ev = Some ts -> t ∈ ts ->
  firestore e (collection e) u = Document d ->
  primary_usable (utcnow e) d ts = true ->
  d !! t = Some (Fields c) -> valid_until c = At vu ->
  exists results,
    consent_results (verify_consent_for_pii_types e ev) = Some results /\
    results !! t = Some (default false (granted c) && (utcnow e <=? vu)).
Proof.
  intros Hu Hne Hts Hin Hstore Hok Hd Hvu.
  assert (ts <> []) as Hnil by (intros ->; by apply elem_of_nil in Hin).
  destruct (requested_types_resolved e ev u ts Hu Hne Hts Hnil) as (r & Hr & Hlook).
  exists r. split; [done |]. rewrite Hlook, decide_True by done. f_equal.
  unfold resolved. rewrite Hstore, Hok. unfold primary_consent. rewrite Hd, Hvu.
  case_bool_decide as Hlate.
  - rewrite (proj2 (Z.leb_gt _ _)) by lia. by rewrite andb_false_r.
  - rewrite (proj2 (Z.leb_le _ _)) by lia. by rewrite andb_true_r.
Qed.

Lemma primary_expiry_honoured_witness :
  exists results,
    consent_results (verify_consent_for_pii_types online_env
                       (request "u3" ["EMAIL_ADDRESS"; "PHONE_NUMBER"]%string))
      = Some results /\
    results !! "PHONE_NUMBER"%string = Some (default false (Some true) && (200 <=? 100)).
Proof.
  apply (primary_expiry_honoured online_env _ "u3"%string "PHONE_NUMBER"%string
           ["EMAIL_ADDRESS"; "PHONE_NUMBER"]%string u3_document
           {| granted := Some true; valid_until := At 100 |} 100).
  - reflexivity.
  - discriminate.
  - reflexivity.
  - right. left.
  - reflexivity.
  - vm_compute. reflexivity.
  - vm_compute. reflexivity.
  - reflexivity.
Defined.

(** X4. One entry of the user's document that the loop cannot evaluate (a
    value that is not a dictionary, an expiry that cannot be compared with
    the clock) sends the whole request to the local table: every requested
    type, the well-formed ones included, gets the local [granted] flag. *)
Theorem malformed_entry_falls_back (e : env) (ev : event) (u t0 : string)
    (ts : list string) (d : gmap string doc_value) :
  user_id ev = Some u -> u <> ""%string ->
  pii_findings ev = Some ts ->
  firestore e (collection e) u = Document d ->
  t0 ∈ ts -> raises (primary_consent (utcnow e) d t0) ->
  exists results,
    consent_results (verify_consent_for_pii_types e ev) = Some results /\
    forall t, t ∈ ts -> results !! t = Some (local_granted (local_db e) u t).
Proof.
  intros Hu Hne Hts Hstore Hin Hbad.
  assert (ts <> []) as Hnil by (intros ->; by apply elem_of_nil in Hin).
  destruct (requested_types_resolved e ev u ts Hu Hne Hts Hnil) as (r & Hr & Hlook).
  exists r. split; [done |]. intros t Ht. rewrite Hlook, decide_True by done.
  f_equal. unfold resolved. rewrite Hstore.
  destruct (primary_usable (utcnow e) d ts) eqn:Hok; [|done].
  destruct (proj1 (primary_usable_forall _ _ _) Hok t0 Hin) as [b Hb].
  by rewrite Hb in Hbad.
Qed.

Lemma malformed_entry_falls_back_witness :
  exists results,
    consent_results (verify_consent_for_pii_types online_env
                       (request "u3" ["EMAIL_ADDRESS"; "US_PASSPORT"]%string))
      = Some results /\
    forall t, t ∈ ["EMAIL_ADDRESS"; "US_PASSPORT"]%string ->
              results !! t = Some (local_granted (local_db online_env) "u3" t).
Proof.
  apply (malformed_entry_falls_back online_env _ "u3"%string "US_PASSPORT"%string
           ["EMAIL_ADDRESS"; "US_PASSPORT"]%string u3_document).
  - reflexivity.
  - discriminate.
  - reflexivity.
  - reflexivity.
  - right. left.
  - vm_compute. exact I.
Defined.

(** X5. The single-type check agrees with the multi-type check on a
    one-element request: [has_consent] is the entry the multi-type check
    stores for that type. *)
Theorem verify_consent_agrees (e : env) (u t : string) :
  u <> ""%string -> t <> ""%string ->
  exists results,
    consent_results (verify_consent_for_pii_types e (request u [t])) = Some results /\
    results !! t = has_consent (verify_consent e (single u t)).
Proof.
  intros Hu Ht.
  destruct (requested_types_resolved e (request u [t]) u [t])
    as (r & Hr & Hlook); [done..|].
  exists r. split; [done |]. rewrite Hlook, decide_True by (by left).
  unfold verify_consent, resolved, primary_usable. simpl.
  rewrite !bool_decide_eq_false_2 by done. simpl.
  destruct (firestore e (collection e) u) as [msg| |d]; [done..|].
  by destruct (primary_consent (utcnow e) d t).
Qed.

Lemma verify_consent_agrees_witness :
  exists results,
    consent_results (verify_consent_for_pii_types online_env
                       (request "u3" ["PHONE_NUMBER"%string])) = Some results /\
    results !! "PHONE_NUMBER"%string =
      has_consent (verify_consent online_env (single "u3" "PHONE_NUMBER")).
Proof. apply verify_consent_agrees; discriminate. Defined.

End ConsentLaws.

(** ** Redaction: what is written, and where *)

Module RedactionLaws.
Import Py Fs Redaction RedactionInputs.

Lemma length_append (a b : string) :
  String.length (a +:+ b) = (String.length a + String.length b)%nat.
Proof. induction a as [|c a IH]; simpl; [done | by rewrite IH]. Qed.

Lemma substring_all (p : string) : String.substring 0 (String.length p) p = p.
Proof. induction p as [|c p IH]; simpl; [done | by rewrite IH]. Qed.

(** Cutting a string at any offset and gluing the halves gives it back. *)
Lemma substring_split (n : nat) (p : string) :
  (String.substring 0 n p +:+ String.substring n (String.length p - n) p)%string = p.
Proof.
  revert n. induction p as [|c p IH]; intros [|n]; simpl; try done.
  - by rewrite substring_all.
  - change (String c (String.substring 0 n p +:+
                       String.substring n (String.length p - n) p) = String c p).
    f_equal. apply IH.
Qed.

Lemma append_empty (p : string) : (p +:+ "")%string = p.
Proof.
  induction p as [|c p IH]; [done |].
  change (String c (p +:+ "") = String c p). by rewrite IH.
Qed.

(** [splitext] cuts the path in two. *)
Lemma splitext_concat (p : string) : ((splitext p).1 +:+ (splitext p).2)%string = p.
Proof.
  unfold splitext. destruct (rfind "." p >? rfind "/" p); [|apply append_empty].
  destruct (existsb _ _); [apply substring_split | apply append_empty].
Qed.

Lemma redacted_path_length (p : string) :
  String.length (redacted_path_of p) = (String.length p + 9)%nat.
Proof.
  unfold redacted_path_of. rewrite !length_append.
  rewrite <- (splitext_concat p) at 3. rewrite length_append. simpl. lia.
Qed.

Lemma redacted_path_differs (p : string) : redacted_path_of p <> p.
Proof.
  intros Heq. pose proof (redacted_path_length p) as Hlen. rewrite Heq in Hlen. lia.
Qed.

(** X6. Whatever the call does, the only path whose content can change is
    the redacted path, which is never the input path: the original file is
    left as it was, and so is every other file and every permission. *)
Theorem redaction_leaves_original (e : env) (fs : filesystem) (ev : event) :
  let path := default ""%string (file_path ev) in
  let fs' := (redact_sensitive_data e fs ev).2 in
  unwritable fs' = unwritable fs /\
  nodes fs' !! path = nodes fs !! path /\
  forall p, p <> redacted_path_of path -> nodes fs' !! p = nodes fs !! p.
Proof.
  intros path fs'.
  assert (Hframe : unwritable fs' = unwritable fs /\
                   forall p, p <> redacted_path_of path ->
                             nodes fs' !! p = nodes fs !! p).
  { subst fs'. unfold redact_sensitive_data. fold path.
    destruct (negb _); [done |]. destruct (_ && _); [done |].
    unfold redact_body. destruct (contents_of fs ev path); [|done]. cbn.
    destruct (pii_to_redact ev); [done |]. cbv zeta.
    rewrite RedactionFacts.write_text_can_write.
    destruct (can_write fs _); [|done]. cbn. split; [done |].
    intros p Hp. by rewrite lookup_insert_ne. }
  destruct Hframe as [Hperm Hother]. split; [done |]. split; [|done].
  apply Hother. intros Heq. by apply (redacted_path_differs path).
Qed.

(** X7. When the de-identification service answers, its text is what gets
    written, as it is, under the redacted path, and the reply lists the
    whole redact set; the pattern masker has no part in it. *)
Theorem service_output_written (e : env) (fs : filesystem) (ev : event)
    (path : string) (contents out : pystr) :
  readable_input fs ev path contents ->
  pii_to_redact ev <> [] ->
  dlp_redact e (pii_to_redact ev) contents = Ret out ->
  can_write fs (redacted_path_of path) = true ->
  redact_sensitive_data e fs ev =
    (success_reply (redacted_path_of path) (pii_to_redact ev),
     {| nodes := <[redacted_path_of path := File out]> (nodes fs);
        unwritable := unwritable fs |}).
Proof.
  intros Hin Hne Hdlp Hw.
  destruct (RedactionFacts.readable_input_run e fs ev path contents Hin) as [-> ->].
  destruct (pii_to_redact ev) as [|t ts]; [done |]. cbv zeta.
  rewrite Hdlp. cbn [try_except].
  rewrite RedactionFacts.write_text_can_write, Hw. done.
Qed.

Lemma service_output_written_witness :
  redact_sensitive_data serviced_env RedactionSamples.intake_fs
      (RedactionSamples.ssn_event (Some "watched_dir/letter.txt"%string)) =
    (success_reply (redacted_path_of "watched_dir/letter.txt")
       (pii_to_redact (RedactionSamples.ssn_event (Some "watched_dir/letter.txt"%string))),
     {| nodes := <[redacted_path_of "watched_dir/letter.txt" :=
                     File (of_ascii "[redacted by the service]")]>
                   (nodes RedactionSamples.intake_fs);
        unwritable := unwritable RedactionSamples.intake_fs |}).
Proof.
  apply (service_output_written serviced_env RedactionSamples.intake_fs _
           "watched_dir/letter.txt" RedactionSamples.letter).
  - split; [reflexivity | split; [discriminate | vm_compute; reflexivity]].
  - vm_compute. discriminate.
  - reflexivity.
  - vm_compute. reflexivity.
Defined.

Lemma dlp_redact_unconfigured e types contents :
  truthy (GOOGLE_CLOUD_PROJECT e) = false ->
  dlp_redact e types contents = Raise "GOOGLE_CLOUD_PROJECT not set".
Proof. intros H. unfold dlp_redact. by rewrite H. Qed.

(** X8. Without a configured project the de-identification service is
    never called: two environments that lack a project and share the
    regular-expression engine give the same reply and the same file
    system, whatever their services would answer. *)
Theorem unconfigured_service_unused (e1 e2 : env) (fs : filesystem) (ev : event) :
  truthy (GOOGLE_CLOUD_PROJECT e1) = false ->
  truthy (GOOGLE_CLOUD_PROJECT e2) = false ->
  re_search e1 = re_search e2 ->
  redact_sensitive_data e1 fs ev = redact_sensitive_data e2 fs ev.
Proof.
  intros H1 H2 Hre. unfold redact_sensitive_data.
  destruct (negb _); [done |]. destruct (_ && _); [done |].
  unfold redact_body. destruct (contents_of fs ev _) as [contents|msg]; [|done]. cbn.
  destruct (pii_to_redact ev) as [|t ts]; [done |]. cbv zeta.
  unfold redacted_text. by rewrite !dlp_redact_unconfigured, Hre.
Qed.

Lemma unconfigured_service_unused_witness :
  redact_sensitive_data RedactionSamples.local_env RedactionSamples.intake_fs
    RedactionSamples.u1_event =
  redact_sensitive_data unconfigured_env RedactionSamples.intake_fs
    RedactionSamples.u1_event.
Proof. apply unconfigured_service_unused; reflexivity. Defined.

(** X9. When non-empty contents come with the call the file is never
    looked at: on two file systems that agree on whether the redacted path
    can be written the reply is the same, whether or not the file exists
    and whatever it holds. *)
Theorem supplied_contents_not_read (e : env) (fs1 fs2 : filesystem) (ev : event) :
  truthy_text (file_contents ev) = true ->
  can_write fs1 (redacted_path_of (default ""%string (file_path ev))) =
  can_write fs2 (redacted_path_of (default ""%string (file_path ev))) ->
  (redact_sensitive_data e fs1 ev).1 = (redact_sensitive_data e fs2 ev).1.
Proof.
  intros Hc Hw. unfold redact_sensitive_data.
  destruct (negb _); [done |]. rewrite Hc. cbn [negb andb].
  unfold redact_body, contents_of. rewrite Hc. cbn.
  destruct (pii_to_redact ev) as [|t ts]; [done |]. cbv zeta.
  rewrite !RedactionFacts.write_text_can_write, Hw.
  by destruct (can_write fs2 _).
Qed.

Lemma supplied_contents_not_read_witness :
  (redact_sensitive_data RedactionSamples.local_env RedactionSamples.empty_fs
     inline_event).1 =
  (redact_sensitive_data RedactionSamples.local_env RedactionSamples.intake_fs
     inline_event).1.
Proof. apply supplied_contents_not_read; reflexivity. Defined.

(** X10. Contents given as the empty string count as not given: the call
    behaves as if the key were absent, reading the file or reporting it
    missing. *)
Theorem empty_contents_as_absent (e : env) (fs : filesystem) (ev : event) :
  file_contents ev = Some [] ->
  redact_sensitive_data e fs ev = redact_sensitive_data e fs (with_contents ev None).
Proof.
  intros Hc. unfold redact_sensitive_data, redact_body, contents_of, pii_to_redact.
  rewrite Hc. reflexivity.
Qed.

Lemma empty_contents_as_absent_witness :
  redact_sensitive_data RedactionSamples.local_env RedactionSamples.empty_fs
      (with_contents inline_event (Some [])) =
    (error_only "File not found and no contents provided", RedactionSamples.empty_fs) /\
  redact_sensitive_data RedactionSamples.local_env RedactionSamples.empty_fs
      (with_contents inline_event (Some [])) =
  redact_sensitive_data RedactionSamples.local_env RedactionSamples.empty_fs
      (with_contents (with_contents inline_event (Some [])) None).
Proof.
  split; [reflexivity |]. apply empty_contents_as_absent. reflexivity.
Defined.

Lemma re_sub_no_match search pattern repl s :
  next_match search pattern s 0 = None -> re_sub search pattern repl s = s.
Proof.
  intros Hm. unfold re_sub. destruct (length s); simpl; [done |]. by rewrite Hm.
Qed.

(** X11. When none of the patterns of the requested types has a match in
    the content, the masker returns the content unchanged. *)
Theorem no_match_unchanged (search : engine) (content : pystr) (ts : list string) :
  (forall t pattern, t ∈ ts -> patterns !! t = Some pattern ->
                     next_match search pattern content 0 = None) ->
  simple_redact_content search content ts = content.
Proof.
  intros Hnone. induction ts as [|t ts IH]; simpl; [done |].
  assert (redact_type search content t = content) as ->.
  { unfold redact_type. destruct (patterns !! t) as [p|] eqn:Hp; [|done].
    apply re_sub_no_match. apply (Hnone t); [by left | done]. }
  apply IH. intros t' p Hin. apply Hnone. by right.
Qed.

Lemma no_match_unchanged_witness :
  simple_redact_content Regex.re_engine plain_note
    ["EMAIL_ADDRESS"; "PHONE_NUMBER"; "US_SSN"]%string = plain_note.
Proof.
  apply no_match_unchanged. intros t p Hin Hp.
  apply elem_of_cons in Hin as [->|Hin];
    [injection Hp as <-; vm_compute; reflexivity |].
  apply elem_of_cons in Hin as [->|Hin];
    [injection Hp as <-; vm_compute; reflexivity |].
  apply list_elem_of_singleton in Hin as ->.
  injection Hp as <-. vm_compute. reflexivity.
Defined.

End RedactionLaws.

(** ** Audit: the log, the report and the export *)

Module AuditLaws.
Import Py Audit AuditInputs.

Lemma with_timestamp_made e ev :
  with_timestamp e (make_audit_entry e ev) = make_audit_entry e ev.
Proof. reflexivity. Qed.

Lemma generated_report_inv e st rq report :
  generated_report (generate_compliance_report e st rq).1 = Some report ->
  exists entries,
    selected_entries st rq = Ret entries /\ report = build_report e rq entries /\
    report_file_locked st = false.
Proof.
  unfold generate_compliance_report, save_report.
  destruct (selected_entries st rq) as [entries|msg]; cbn; [|done].
  destruct (report_file_locked st); cbn; [done |].
  intros [= <-]. eauto.
Qed.

Lemma compliant_count_le entries :
  (length (List.filter is_compliant entries) <= length entries)%nat.
Proof.
  induction entries as [|x xs IH]; simpl; [done |].
  destruct (is_compliant x); simpl; lia.
Qed.

Lemma all_compliant_count entries :
  length (List.filter is_compliant entries) = length entries <->
  Forall (fun entry => compliance_status entry = Some "compliant"%string) entries.
Proof.
  induction entries as [|x xs IH]; simpl; [split; [constructor | done] |].
  pose proof (compliant_count_le xs) as Hle.
  unfold is_compliant at 1. case_bool_decide as Hx; simpl.
  - split.
    + intros Hlen. constructor; [done |]. apply IH. lia.
    + intros Hall. inversion Hall; subst. f_equal. by apply IH.
  - split; [lia |]. intros Hall. by inversion Hall; subst.
Qed.

(** X13. Every report that is generated is consistent with itself: the
    compliant and non-compliant counts add up to the total, the recent
    events are at most ten and are the tail of the selected entries, and
    the overall status is "compliant" exactly when every selected entry is
    marked compliant (an empty selection included). *)
Theorem report_is_consistent (e : env) (st : storage) (rq : report_request)
    (report : compliance_report) :
  generated_report (generate_compliance_report e st rq).1 = Some report ->
  let s := report_summary report in
  (compliant_files s + non_compliant_files s = total_files_processed s)%nat /\
  (length (recent_processing_events report) <= 10)%nat /\
  (exists entries,
     selected_entries st rq = Ret entries /\
     total_files_processed s = length entries /\
     recent_processing_events report `suffix_of` entries /\
     (report_compliance_status report = "compliant"%string <->
      Forall (fun entry => compliance_status entry = Some "compliant"%string) entries)).
Proof.
  intros Hgen s. destruct (generated_report_inv _ _ _ _ Hgen) as (entries & Hsel & -> & _).
  subst s. cbn. pose proof (compliant_count_le entries) as Hle.
  split; [lia |]. split.
  - unfold last_n. rewrite length_drop. lia.
  - exists entries. split; [done |]. split; [done |]. split; [apply suffix_drop |].
    rewrite <- all_compliant_count.
    destruct (length entries - length (List.filter is_compliant entries) =? 0)%nat eqn:Hz.
    + apply Nat.eqb_eq in Hz. split; [lia | done].
    + apply Nat.eqb_neq in Hz. split; [done | lia].
Qed.

Lemma report_is_consistent_witness :
  exists report,
    generated_report
      (generate_compliance_report AuditSamples.local_only_env mixed_storage
         (AuditSamples.report_for None)).1 = Some report /\
    (compliant_files (report_summary report) + non_compliant_files (report_summary report)
     = total_files_processed (report_summary report))%nat /\
    total_files_processed (report_summary report) = 2%nat /\
    report_compliance_status report = "requires_attention"%string.
Proof.
  eexists. split; [reflexivity |].
  destruct (report_is_consistent AuditSamples.local_only_env mixed_storage
              (AuditSamples.report_for None) _ eq_refl) as (Hsum & _ & _).
  split; [exact Hsum |]. split; reflexivity.
Defined.

(** X14. Lines of the log that do not parse are skipped: a malformed line
    anywhere in the log changes neither the report nor the export. *)
Theorem malformed_lines_are_skipped (e : env) (st : storage) (rq : report_request)
    (requested : option string) (before after : list log_line) :
  (generate_compliance_report e (set_audit_log st (before ++ Malformed :: after)) rq).1 =
  (generate_compliance_report e (set_audit_log st (before ++ after)) rq).1 /\
  (export_audit_to_csv (set_audit_log st (before ++ Malformed :: after)) requested).1 =
  (export_audit_to_csv (set_audit_log st (before ++ after)) requested).1.
Proof.
  assert (Hread : read_audit_log (set_audit_log st (before ++ Malformed :: after)) =
                  read_audit_log (set_audit_log st (before ++ after))).
  { unfold read_audit_log. cbn [set_audit_log audit_log audit_log_locked].
    by rewrite !omap_app. }
  split.
  - unfold generate_compliance_report, selected_entries. rewrite Hread. clear Hread.
    destruct (read_audit_log _) as [vs|]; [|done].
    cbn [mbind exc_bind bind]. destruct (as_objects vs); [|done].
    cbn [mbind exc_bind bind]. unfold save_report.
    cbn [set_audit_log report_file_locked].
    by destruct (report_file_locked st).
  - unfold export_audit_to_csv. cbn [set_audit_log audit_log]. rewrite Hread.
    clear Hread. destruct (read_audit_log _) as [[|v vs]|]; [done | | done].
    cbn [set_audit_log csv_locked]. destruct (bool_decide _); [done |].
    by destruct (flatten_rows (v :: vs)) as [rows [msg|]].
Qed.

(** X15. With a user filter the report is about that user alone: every
    event it shows belongs to the user, and the total is the number of the
    log's entries of that user. *)
Theorem report_filter_selects_user (e : env) (st : storage) (rq : report_request)
    (report : compliance_report) (user : string) :
  rq_user_id rq = Some user -> user <> ""%string ->
  generated_report (generate_compliance_report e st rq).1 = Some report ->
  Forall (fun entry => user_id entry = Some user) (recent_processing_events report) /\
  exists vs entries,
    read_audit_log st = Ret vs /\ as_objects vs = Ret entries /\
    total_files_processed (report_summary report) =
      length (filter (fun entry => user_id entry = Some user) entries).
Proof.
  intros Hu Hne Hgen.
  destruct (generated_report_inv _ _ _ _ Hgen) as (selected & Hsel & -> & _).
  unfold selected_entries in Hsel.
  destruct (read_audit_log st) as [vs|] eqn:Hread; [|done]. cbn in Hsel.
  destruct (as_objects vs) as [entries|] eqn:Hobj; [|done]. cbn in Hsel.
  injection Hsel as <-. unfold filter_by_user. rewrite Hu. cbn.
  rewrite bool_decide_eq_false_2 by done. cbn. split.
  - unfold last_n. apply Forall_drop. apply Forall_forall.
    intros entry Hin. by apply list_elem_of_filter in Hin as [? _].
  - by exists vs, entries.
Qed.

Lemma report_filter_selects_user_witness :
  exists report,
    generated_report
      (generate_compliance_report AuditSamples.local_only_env mixed_storage
         (AuditSamples.report_for (Some "u7"%string))).1 = Some report /\
    Forall (fun entry => user_id entry = Some "u7"%string)
           (recent_processing_events report) /\
    total_files_processed (report_summary report) = 1%nat.
Proof.
  eexists. split; [reflexivity |].
  destruct (report_filter_selects_user AuditSamples.local_only_env mixed_storage
              (AuditSamples.report_for (Some "u7"%string)) _ "u7"%string
              eq_refl ltac:(discriminate) eq_refl) as [Hall _].
  split; [exact Hall | reflexivity].
Defined.

Lemma flatten_rows_spec vs rows :
  flatten_rows vs = (rows, None) ->
  exists entries, as_objects vs = Ret entries /\ rows = flatten <$> entries.
Proof.
  revert rows. induction vs as [|[entry|] vs IH]; intros rows Hrows; simpl in *.
  - injection Hrows as <-. by exists [].
  - destruct (flatten_rows vs) as [rows' err]. injection Hrows as <- ->.
    destruct (IH rows' eq_refl) as (es & Hes & ->).
    exists (entry :: es). by rewrite Hes.
  - done.
Qed.

(** X16. An export that reports success has written one row for each
    entry of the log, in the log's order, to the file of the requested name
    (or audit_export.csv), and reports that name and the number of
    entries. *)
Theorem export_writes_every_entry (st st' : storage) (requested : option string)
    (r : export_reply) :
  export_audit_to_csv st requested = (r, st') ->
  exported r = true ->
  exists vs entries,
    read_audit_log st = Ret vs /\ as_objects vs = Ret entries /\ entries <> [] /\
    csv_files st' !! default "audit_export.csv"%string requested
      = Some (flatten <$> entries) /\
    output_file r = Some (default "audit_export.csv"%string requested) /\
    entries_exported r = Some (length entries).
Proof.
  unfold export_audit_to_csv.
  destruct (audit_log st) as [lines|] eqn:Hlog; [|by intros [= <- <-]].
  destruct (read_audit_log st) as [[|v vs]|msg] eqn:Hread;
    [by intros [= <- <-] | | by intros [= <- <-]].
  destruct (bool_decide _); [by intros [= <- <-] |].
  destruct (flatten_rows (v :: vs)) as [rows [msg|]] eqn:Hrows; [by intros [= <- <-] |].
  intros [= <- <-] _.
  apply flatten_rows_spec in Hrows as (entries & Hobj & ->).
  exists (v :: vs), entries. split; [done |]. split; [done |].
  assert (length entries = length (v :: vs)) as Hlen.
  { clear -Hobj. revert entries Hobj.
    induction (v :: vs) as [|[x|] l IH]; intros entries; simpl; [by intros [= <-] | | done].
    destruct (as_objects l) as [es|]; cbn; [|done].
    intros [= <-]. simpl. f_equal. by apply IH. }
  split; [by intros -> |].
  cbn. rewrite lookup_insert_eq, Hlen. done.
Qed.

Lemma export_writes_every_entry_witness :
  exists entries,
    as_objects [JObject (make_audit_entry AuditSamples.local_only_env AuditSamples.finished_run);
                JObject (make_audit_entry AuditSamples.local_only_env failed_run)]
      = Ret entries /\
    csv_files (export_audit_to_csv mixed_storage None).2 !! "audit_export.csv"%string
      = Some (flatten <$> entries) /\
    entries_exported (export_audit_to_csv mixed_storage None).1 = Some 2%nat.
Proof.
  destruct (export_writes_every_entry mixed_storage
              (export_audit_to_csv mixed_storage None).2 None
              (export_audit_to_csv mixed_storage None).1)
    as (vs & entries & Hread & Hobj & _ & Hcsv & _ & Hn).
  - reflexivity.
  - reflexivity.
  - injection Hread as <-. exists entries. split; [exact Hobj |].
    split; [exact Hcsv |]. rewrite Hn.
    cbn in Hobj. injection Hobj as <-. reflexivity.
Defined.

(** X17. Without a log file, or with a log none of whose lines parses, the
    export says so in its reply ([exported] false with an error) and writes
    nothing. *)
Theorem export_needs_entries (st : storage) (requested : option string) :
  audit_log st = None \/ read_audit_log st = Ret [] ->
  export_audit_to_csv st requested =
    (export_failed (match audit_log st with
                    | Some _ => "No audit entries found"%string
                    | None => "No audit log file found"%string
                    end), st).
Proof.
  unfold export_audit_to_csv. intros [Hnone | Hread].
  - by rewrite Hnone.
  - rewrite Hread. destruct (audit_log st) eqn:Hlog; [done |].
    unfold read_audit_log in Hread. by rewrite Hlog in Hread.
Qed.

Lemma export_needs_entries_witness :
  export_audit_to_csv AuditSamples.fresh_storage (Some "out.csv"%string) =
    (export_failed "No audit log file found", AuditSamples.fresh_storage).
Proof.
  apply (export_needs_entries AuditSamples.fresh_storage). left. reflexivity.
Defined.

(** X19. The [audit_logged] flag of the reply is true exactly when the
    store the logger selected accepted the entry: the analytical sink was
    selected and took the row without errors, or the local log was selected
    and its file could be opened for appending. *)
Theorem audit_logged_means_stored (self : AuditLogger) (e : env) (st : storage)
    (ev : processing_event) :
  audit_logged (log_file_processing_event self e st ev).1 = true <->
  (use_bigquery self = true /\ is_Some (bigquery_client self) /\
   insert_rows_json e (make_audit_entry e ev) = Ret []) \/
  ((use_bigquery self = false \/ bigquery_client self = None) /\
   audit_log_locked st = false).
Proof.
  unfold log_file_processing_event, log_audit_event. rewrite with_timestamp_made.
  destruct (use_bigquery self) eqn:Hu; cbn [andb].
  - case_bool_decide as Hc; cbn.
    + unfold _log_to_bigquery.
      destruct (insert_rows_json e _) as [errors|msg]; cbn.
      * case_bool_decide as He.
        -- subst errors. split; [intros _; by left | done].
        -- split; [done |]. intros [(_ & _ & [= ->]) | ([? | Hn] & _)]; [done .. |].
           rewrite Hn in Hc. by destruct Hc.
      * split; [done |]. intros [(_ & _ & ?) | ([? | Hn] & _)]; [done .. |].
        rewrite Hn in Hc. by destruct Hc.
    + unfold _log_to_local_file, append_line.
      destruct (audit_log_locked st); cbn.
      * split; [done |]. intros [(_ & ? & _) | (_ & ?)]; done.
      * split; [|done]. intros _. right. split; [|done]. right.
        destruct (bigquery_client self); [|done]. destruct Hc. eauto.
  - unfold _log_to_local_file, append_line.
    destruct (audit_log_locked st); cbn.
    + split; [done |]. intros [(? & _) | (_ & ?)]; done.
    + split; [|done]. intros _. right. split; [by left | done].
Qed.

Lemma audit_logged_means_stored_witness :
  audit_logged (log_file_processing_event (AuditLogger_init working_sink_env)
                  working_sink_env AuditSamples.fresh_storage failed_run).1 = true /\
  audit_logged (log_file_processing_event local_logger AuditSamples.local_only_env
                  AuditSamples.fresh_storage failed_run).1 = true.
Proof.
  split.
  - apply (proj2 (audit_logged_means_stored (AuditLogger_init working_sink_env)
                    working_sink_env AuditSamples.fresh_storage failed_run)).
    left. split; [reflexivity |]. split; [by eexists | reflexivity].
  - apply (proj2 (audit_logged_means_stored local_logger AuditSamples.local_only_env
                    AuditSamples.fresh_storage failed_run)).
    right. split; [left |]; reflexivity.
Defined.

(** X20. A sink that cannot be set up at construction (no project, or a
    client constructor that raises) makes the logger use the local log from
    then on: every event goes to the local-file logger, whatever the sink
    would answer, and a run is reported as logged exactly when the log file
    could be opened. *)
Theorem unavailable_sink_logs_locally (e : env) (st : storage) (ev : processing_event) :
  truthy (GOOGLE_CLOUD_PROJECT e) = false \/
  raises (bigquery_Client e (default ""%string (GOOGLE_CLOUD_PROJECT e))) ->
  AuditLogger_init e = {| bigquery_client := None; use_bigquery := false |} /\
  (forall event_data,
     log_audit_event (AuditLogger_init e) e st event_data =
       _log_to_local_file st (with_timestamp e event_data)) /\
  audit_logged (log_file_processing_event (AuditLogger_init e) e st ev).1 =
    negb (audit_log_locked st).
Proof.
  intros Hsink.
  assert (Hinit : AuditLogger_init e = {| bigquery_client := None; use_bigquery := false |}).
  { unfold AuditLogger_init. destruct (truthy (GOOGLE_CLOUD_PROJECT e)) eqn:Hp; [|done].
    destruct Hsink as [? | Hraise]; [done |].
    by destruct (bigquery_Client e _). }
  split; [done |]. rewrite Hinit. split; [done |].
  unfold log_file_processing_event, log_audit_event, _log_to_local_file, append_line.
  cbn. by destruct (audit_log_locked st).
Qed.

Lemma unavailable_sink_logs_locally_witness :
  AuditLogger_init AuditSamples.local_only_env
    = {| bigquery_client := None; use_bigquery := false |} /\
  audit_logged (log_file_processing_event (AuditLogger_init AuditSamples.local_only_env)
                  AuditSamples.local_only_env AuditSamples.fresh_storage failed_run).1
    = negb (audit_log_locked AuditSamples.fresh_storage).
Proof.
  destruct (unavailable_sink_logs_locally AuditSamples.local_only_env
              AuditSamples.fresh_storage failed_run) as (Hinit & _ & Hflag).
  - left. reflexivity.
  - split; [exact Hinit | exact Hflag].
Defined.

(** X27. The line written to the local log always carries a timestamp: the
    entry's own when it has one (the entry is then written as it is), the
    current time otherwise. *)
Theorem logged_line_has_timestamp (self : AuditLogger) (e : env) (st : storage)
    (event_data : audit_entry) :
  use_bigquery self = false -> audit_log_locked st = false ->
  exists line,
    log_audit_event self e st event_data =
      (true, set_audit_log st (default [] (audit_log st) ++ [Parsed (JObject line)])) /\
    timestamp line = Some (default (now e) (timestamp event_data)) /\
    (is_Some (timestamp event_data) -> line = event_data).
Proof.
  intros Hu Hk. exists (with_timestamp e event_data).
  rewrite AuditFacts.local_log_append, Hk by done. split; [done |].
  unfold with_timestamp. destruct (timestamp event_data) as [ts|] eqn:Hts; cbn.
  - split; [done | done].
  - split; [done |]. by intros [? ?].
Qed.

Lemma logged_line_has_timestamp_witness :
  exists line,
    log_audit_event local_logger AuditSamples.local_only_env AuditSamples.fresh_storage
        untimed_entry =
      (true, set_audit_log AuditSamples.fresh_storage
               (default [] (audit_log AuditSamples.fresh_storage)
                  ++ [Parsed (JObject line)])) /\
    timestamp line = Some (now AuditSamples.local_only_env).
Proof.
  destruct (logged_line_has_timestamp local_logger AuditSamples.local_only_env
              AuditSamples.fresh_storage
              untimed_entry
              eq_refl eq_refl) as (line & Hrun & Hts & _).
  exists line. split; [exact Hrun | exact Hts].
Defined.

(** X28. The snapshot file holds the report that was just returned; a
    generation that fails leaves the storage, the previous snapshot
    included, as it was. *)
Theorem snapshot_holds_returned_report (e : env) (st : storage) (rq : report_request) :
  (forall report,
     generated_report (generate_compliance_report e st rq).1 = Some report ->
     (generate_compliance_report e st rq).2 = set_report st report) /\
  (report_generated (generate_compliance_report e st rq).1 = false ->
   (generate_compliance_report e st rq).2 = st).
Proof.
  unfold generate_compliance_report, save_report.
  destruct (selected_entries st rq) as [entries|msg]; cbn; [|done].
  destruct (report_file_locked st); cbn; [done |].
  split; [by intros report [= <-] | done].
Qed.

End AuditLaws.

(** ** Ingestion and detection: slots, scans and copies *)

Module IngestionLaws.
Import Py Fs Watchdog Handover.

(** X21. Starting and stopping the monitoring are idempotent: a second
    start answers "already_monitoring", a second stop answers
    "not_monitoring", neither changes the state again, and neither ever
    touches the pending-event slot. *)
Theorem monitoring_start_stop (st : state) :
  observer (start_file_monitoring st).2 = Some tt /\
  start_file_monitoring (start_file_monitoring st).2 =
    (note None (Some "File monitoring is already active"%string)
          (Some "already_monitoring"%string), (start_file_monitoring st).2) /\
  observer (stop_file_monitoring st).2 = None /\
  stop_file_monitoring (stop_file_monitoring st).2 =
    (note None (Some "File monitoring was not active"%string)
          (Some "not_monitoring"%string), (stop_file_monitoring st).2) /\
  latest_event (start_file_monitoring st).2 = latest_event st /\
  latest_event (stop_file_monitoring st).2 = latest_event st.
Proof.
  unfold start_file_monitoring, stop_file_monitoring.
  destruct (observer st) as [[]|] eqn:Hobs; cbn; rewrite ?Hobs; done.
Qed.

(** X22. The slot holds one event: of two notifications about files the
    later one is what the next poll returns, the earlier one is gone. The
    poll empties the slot; polled again over an unchanged directory that is
    not empty, the watch answers from the scan, with a payload for the
    most recently created file. *)
Theorem pending_slot_holds_latest (st : state) (n1 n2 : notification)
    (t1 t2 now now' : string) (f : string * Z) (rest : list (string * Z)) :
  is_directory n2 = false ->
  let polled := {| latest_event := None; observer := observer st |} in
  monitor_watched_directory (on_modified (on_created st n1 t1) n2 t2)
      (Listing (f :: rest)) now
    = Ret (payload (src_path n2) "user123" t2, polled) /\
  monitor_watched_directory polled (Listing (f :: rest)) now'
    = Ret (payload (in_watched_dir (max_by_ctime f rest).1) "user123" now', polled).
Proof.
  intros Hfile polled. split; [|reflexivity].
  unfold on_modified, on_created. rewrite Hfile.
  by destruct (is_directory n1).
Qed.

Lemma pending_slot_holds_latest_witness :
  monitor_watched_directory
      (on_modified (on_created IngestionSamples.idle (created "watched_dir/a.txt") "09:00")
                   (created "watched_dir/b.txt") "09:01")
      (Listing [("a.txt"%string, 1); ("b.txt"%string, 2)]) "09:02"
    = Ret (payload "watched_dir/b.txt" "user123" "09:01",
           {| latest_event := None; observer := observer IngestionSamples.idle |}) /\
  monitor_watched_directory
      {| latest_event := None; observer := observer IngestionSamples.idle |}
      (Listing [("a.txt"%string, 1); ("b.txt"%string, 2)]) "09:03"
    = Ret (payload (in_watched_dir (max_by_ctime ("a.txt"%string, 1) [("b.txt"%string, 2)]).1)
                   "user123" "09:03",
           {| latest_event := None; observer := observer IngestionSamples.idle |}).
Proof.
  apply (pending_slot_holds_latest IngestionSamples.idle (created "watched_dir/a.txt")
           (created "watched_dir/b.txt") "09:00" "09:01" "09:02" "09:03").
  reflexivity.
Defined.

(** The entry chosen splits the listing: strictly older entries before it,
    none newer after it. *)
Lemma max_by_ctime_split (best : string * Z) (files : list (string * Z)) :
  exists before after,
    best :: files = before ++ max_by_ctime best files :: after /\
    Forall (fun g => g.2 < (max_by_ctime best files).2) before /\
    Forall (fun g => g.2 <= (max_by_ctime best files).2) after.
Proof.
  revert best. induction files as [|f rest IH]; intros best; simpl.
  - exists [], []. by repeat split.
  - destruct (best.2 <? f.2) eqn:Hlt.
    + apply Z.ltb_lt in Hlt.
      destruct (IH f) as (b & a & Heq & Hb & Ha).
      exists (best :: b), a. split; [by rewrite Heq |]. split; [|done].
      constructor; [|done].
      assert (f.2 <= (max_by_ctime f rest).2); [|lia].
      destruct b as [|x b]; simpl in Heq.
      * injection Heq as <- _. lia.
      * injection Heq as <- _. apply Forall_cons in Hb as [Hx _]. lia.
    + apply Z.ltb_ge in Hlt.
      destruct (IH best) as (b & a & Heq & Hb & Ha).
      destruct b as [|x b]; simpl in Heq.
      * injection Heq as Hbest <-. exists [], (f :: rest).
        split; [by rewrite <- Hbest |]. split; [done |].
        constructor; [rewrite <- Hbest; lia | done].
      * injection Heq as <- Hrest. exists (best :: f :: b), a.
        split; [simpl; do 2 f_equal; exact Hrest |]. split; [|done].
        apply Forall_cons in Hb as [Hx Hb].
        constructor; [done |]. constructor; [lia | done].
Qed.

(** X23. With an empty slot the watch picks, from a listing that is not
    empty, a file whose creation time no other file exceeds, and among
    equally recent files the first in the listing's order. *)
Theorem scan_picks_newest (st : state) (files : list (string * Z)) (now : string) :
  latest_event st = None -> files <> [] ->
  exists before name ctime after,
    files = before ++ (name, ctime) :: after /\
    Forall (fun g => g.2 < ctime) before /\
    Forall (fun g => g.2 <= ctime) after /\
    monitor_watched_directory st (Listing files) now =
      Ret (payload (in_watched_dir name) "user123" now, st).
Proof.
  intros Hslot Hne. destruct files as [|f rest]; [done |].
  destruct (max_by_ctime_split f rest) as (b & a & Heq & Hb & Ha).
  destruct (max_by_ctime f rest) as [name ctime] eqn:Hmax.
  exists b, name, ctime, a. split; [done |]. split; [done |]. split; [done |].
  unfold monitor_watched_directory. by rewrite Hslot, Hmax.
Qed.

Lemma scan_picks_newest_witness :
  exists before name ctime after,
    [("old.txt"%string, 10); ("new.txt"%string, 20); ("twin.txt"%string, 20)]
      = before ++ (name, ctime) :: after /\
    Forall (fun g => g.2 < ctime) before /\
    Forall (fun g => g.2 <= ctime) after /\
    monitor_watched_directory IngestionSamples.idle
        (Listing [("old.txt"%string, 10); ("new.txt"%string, 20); ("twin.txt"%string, 20)])
        "09:00"
      = Ret (payload (in_watched_dir name) "user123" "09:00", IngestionSamples.idle).
Proof.
  apply scan_picks_newest; [reflexivity | discriminate].
Defined.



(** A file already in the watched directory cannot be uploaded again. *)
Example upload_in_place_raises :
  upload_file IngestionSamples.inbox_fs "09:00" "watched_dir/old.txt" "u9"
    = Raise "SameFileError".
Proof. reflexivity. Qed.

(** X25. Detection reports each type once: for a readable file the reply
    lists, without repetition, exactly the types the engine found (none at
    all when it found none), with status scanned. *)
Theorem detect_data_deduplicates (analyze : pystr -> list string -> exc (list string))
    (fs : filesystem) (path : string) (content : pystr) (results : list string) :
  nodes fs !! path = Some (File content) ->
  analyze content Detection.entities = Ret results ->
  exists r,
    Detection.detect_data analyze fs (Some path) = Ret r /\
    NoDup (Detection.pii_findings r) /\
    (forall t, t ∈ Detection.pii_findings r <-> t ∈ results) /\
    (results = [] -> Detection.pii_findings r = []) /\
    Detection.status r = "scanned"%string.
Proof.
  intros Hfile Hres. unfold Detection.detect_data, read_text. rewrite Hfile. cbn.
  rewrite Hres. cbn. eexists. split; [reflexivity |]. cbn. unfold Detection.unique.
  split; [apply NoDup_elements |]. split.
  - intros t. by rewrite elem_of_elements, elem_of_list_to_set.
  - split; [|done]. intros ->. cbn. apply elements_empty.
Qed.

Lemma detect_data_deduplicates_witness :
  exists r,
    Detection.detect_data repeating_engine RedactionSamples.intake_fs
      (Some "watched_dir/letter.txt"%string) = Ret r /\
    NoDup (Detection.pii_findings r) /\
    (forall t, t ∈ Detection.pii_findings r <->
               t ∈ ["EMAIL_ADDRESS"; "US_SSN"; "EMAIL_ADDRESS"]%string).
Proof.
  destruct (detect_data_deduplicates repeating_engine RedactionSamples.intake_fs
              "watched_dir/letter.txt" RedactionSamples.letter
              ["EMAIL_ADDRESS"; "US_SSN"; "EMAIL_ADDRESS"]%string)
    as (r & Hrun & Hnd & Hin & _); [reflexivity | reflexivity |].
  exists r. split; [exact Hrun |]. split; [exact Hnd | exact Hin].
Defined.

End IngestionLaws.

(** ** From consent to redaction *)

Module HandoverLaws.
Import Py Handover.

Lemma filter_agree (P Q : string -> Prop) `{forall t, Decision (P t)}
    `{forall t, Decision (Q t)} (l : list string) :
  (forall t, t ∈ l -> (P t <-> Q t)) -> filter P l = filter Q l.
Proof.
  induction l as [|t l IH]; intros Hagree; [done |].
  assert (filter P l = filter Q l) as Hrest.
  { apply IH. intros t' Hin. apply Hagree. by right. }
  destruct (decide (P t)) as [Hp|Hp].
  - rewrite !filter_cons_True; [by rewrite Hrest | | done].
    apply (Hagree t); [by left | done].
  - rewrite !filter_cons_False; [done | | done].
    intros Hq. apply Hp. apply (Hagree t); [by left | done].
Qed.

(** X26. Redaction run on the findings with the consent check's reply
    masks exactly the findings the check did not consent to, in the order
    of the findings: the check has stored an answer for every one of them,
    so the stage's default for a missing answer never comes into play. A
    reply without [consent_results] (a rejected request) leaves every
    finding to be masked. *)
Theorem consent_drives_redaction (e : Consent.env) (u : string) (ts : list string)
    (path : option string) (contents : option pystr) :
  (u <> ""%string -> ts <> [] ->
   Redaction.pii_to_redact
     (redaction_event path contents ts
        (Consent.verify_consent_for_pii_types e (Consent.request u ts))) =
   filter (fun t => ConsentReference.resolved e u ts t = false) ts) /\
  (forall r, Consent.consent_results r = None ->
             Redaction.pii_to_redact (redaction_event path contents ts r) = ts).
Proof.
  split.
  - intros Hu Hts.
    destruct (ConsentLaws.requested_types_resolved e (Consent.request u ts) u ts)
      as (results & Hres & Hlook); [done..|].
    unfold Redaction.pii_to_redact, redaction_event. cbn. rewrite Hres. cbn.
    apply filter_agree. intros t Hin. by rewrite Hlook, decide_True.
  - intros r Hr. unfold Redaction.pii_to_redact, redaction_event. cbn. rewrite Hr. cbn.
    induction ts as [|t ts IH]; [done |].
    rewrite filter_cons_True by (by rewrite lookup_empty). by rewrite IH.
Qed.

(** User user123 of the shipped table, primary store unreachable: of four
    findings the two without a grant are left to be masked. *)
Example shipped_table_redact_set :
  Redaction.pii_to_redact
    (redaction_event (Some "watched_dir/letter.txt"%string) None
       ["PERSON_NAME"; "PHONE_NUMBER"; "EMAIL_ADDRESS"; "US_SSN"]%string
       (Consent.verify_consent_for_pii_types Consent.offline_env
          (Consent.request "user123"
             ["PERSON_NAME"; "PHONE_NUMBER"; "EMAIL_ADDRESS"; "US_SSN"]%string)))
  = ["PHONE_NUMBER"; "US_SSN"]%string.
Proof. vm_compute. reflexivity. Qed.

End HandoverLaws.
